(** * Statistics engine of the nutrition analysis tool

    A shallow embedding of [src/data_processor.py] (class [DataProcessor]):
    the registry of datasets, the descriptive statistics, the comparison
    of categories and the filters, followed by the properties of the
    engine that the specification states.

    Conventions of the embedding:
    - a pandas DataFrame is a mutable object: frames live in a store and
      the code handles references to them;
    - a numeric cell is an IEEE binary64 number ([float]); a missing cell
      is NaN, as [read_csv(..., na_values='-')] produces it;
    - a frame is numeric: every column holds float cells, which is what
      the loader yields for the menu files; a column is read through a
      label that occurs once, and the statements about columns assume it;
    - a Python [dict] is an association list in insertion order, a Python
      [set] a [gset], whose enumeration order is as unspecified as the
      interpreter's;
    - a method is a computation over the interpreter state that returns a
      value or raises, and may print;
    - the aggregates of pandas and the built-in [round] are parameters of
      the engine ([Runtime]); the comparisons of cells are the IEEE ones. *)

From Stdlib Require Import ZArith Floats.
From stdpp Require Import base option list strings gmap.

Local Open Scope string_scope.
Local Open Scope list_scope.

(** ** Binary64 numbers *)

Module F64.

Definition nan : float := PrimFloat.nan.

(** [pd.isna] on a float cell. *)
Definition isna (x : float) : bool := PrimFloat.is_nan x.
Definition notna (x : float) : bool := negb (isna x).

(** Python's comparison operators on float64 scalars. *)
Definition gt (a b : float) : bool := PrimFloat.ltb b a.
Definition lt (a b : float) : bool := PrimFloat.ltb a b.
Definition eq (a b : float) : bool := PrimFloat.eqb a b.
Definition ge (a b : float) : bool := PrimFloat.leb b a.
Definition le (a b : float) : bool := PrimFloat.leb a b.

End F64.

(** ** Python outcomes *)

Inductive exn : Type :=
| KeyError (key : string)
| ValueError (msg : string)
| TypeError (msg : string)
| IndexError (msg : string).

Inductive outcome (A : Type) : Type :=
| Return (a : A)
| Raise (e : exn).
Arguments Return {A} a.
Arguments Raise {A} e.

(** ** Python dictionaries, in insertion order *)

Section Dict.
Context {V : Type}.

Definition dict := list (string * V).

(** [d.get(k)] *)
Fixpoint dict_get (k : string) (d : dict) : option V :=
  match d with
  | [] => None
  | (k', v) :: d' => if decide (k = k') then Some v else dict_get k d'
  end.

(** [d[k] = v]: an existing key keeps its position, a new key goes last. *)
Fixpoint dict_set (k : string) (v : V) (d : dict) : dict :=
  match d with
  | [] => [(k, v)]
  | (k', v') :: d' =>
      if decide (k = k') then (k', v) :: d' else (k', v') :: dict_set k v d'
  end.

Definition dict_keys (d : dict) : list string := d.*1.
Definition dict_values (d : dict) : list V := d.*2.

(** [len(d)] *)
Definition dict_len (d : dict) : nat := length d.

(** The invariant of a Python dictionary: one entry per key. *)
Definition dict_wf (d : dict) : Prop := NoDup (dict_keys d).
End Dict.
Arguments dict V : clear implicits.

(** ** DataFrames *)

(** A Series restricted to its values, in row order. *)
Definition Series := list float.

(** One row: the index label (the item name, [index_col=0]) and the cells,
    positionally aligned with the column labels. *)
Record Row := mkRow { label : string; cells : list float }.

Record DataFrame := mkFrame { columns : list string; rows : list Row }.

(** Position of the first occurrence of a column label. *)
Fixpoint position (c : string) (cols : list string) : option nat :=
  match cols with
  | [] => None
  | c' :: cols' => if decide (c = c') then Some 0 else S <$> position c cols'
  end.

(** The cell of a row at a column position; a cell that is not there is
    missing. *)
Definition cell (i : nat) (r : Row) : float := default F64.nan (cells r !! i).

(** [df[c]]: the column as a Series, [KeyError] when [c] is not a label.
    This is [df[c]] for a label that occurs once among the columns; the
    statements that read a column say so ([label_count], [distinct_labels]). *)
Definition getitem (df : DataFrame) (c : string) : outcome Series :=
  match position c (columns df) with
  | Some i => Return (cell i <$> rows df)
  | None => Raise (KeyError c)
  end.

(** [c in df.columns] *)
Definition has_column (df : DataFrame) (c : string) : bool :=
  bool_decide (c ∈ columns df).

(** [df[mask]] for a boolean Series [mask] over the same index: the rows
    whose flag is set, in order, under the same columns. *)
Fixpoint select {A : Type} (l : list A) (mask : list bool) : list A :=
  match l, mask with
  | x :: l', b :: mask' => if b then x :: select l' mask' else select l' mask'
  | _, _ => []
  end.

Definition getitem_mask (df : DataFrame) (mask : list bool) : DataFrame :=
  {| columns := columns df; rows := select (rows df) mask |}.

(** The operand of a filter: "value (float or tuple)". *)
Inductive operand : Type :=
| Scalar (x : float)
| Pair (lo hi : float).

(** [series <op> value].  A scalar is compared with every cell.  A tuple
    is not a scalar for NumPy: it is broadcast against the column as an
    array of two elements, which succeeds only on a column of two cells. *)
Definition compare_series (op : float → float → bool) (s : Series) (v : operand)
  : outcome (list bool) :=
  match v with
  | Scalar x => Return ((λ a, op a x) <$> s)
  | Pair lo hi =>
      match s with
      | [a; b] => Return [op a lo; op b hi]
      | _ => Raise (ValueError "operands could not be broadcast together")
      end
  end.

(** [value[i]] for [i] in 0, 1. *)
Definition subscript (v : operand) (i : nat) : outcome float :=
  match v with
  | Scalar _ => Raise (TypeError "'float' object is not subscriptable")
  | Pair lo hi =>
      match i with
      | 0 => Return lo
      | 1 => Return hi
      | _ => Raise (IndexError "tuple index out of range")
      end
  end.

(** [Series.between(left, right)], inclusive on both sides:
    [(self >= left) & (self <= right)]. *)
Definition between (s : Series) (left right : float) : list bool :=
  (λ a, F64.ge a left && F64.le a right) <$> s.

(** ** The interpreter state and the monad of methods *)

Definition ref := nat.

(** [DataProcessor]: [datasets] maps a category to its frame, [categories]
    lists the names in the order they were added. *)
Record DataProcessor := mkProcessor {
  datasets : dict ref;
  categories : list string
}.

Record State := mkState {
  frames : list DataFrame;   (* the store of DataFrame objects *)
  self : DataProcessor;      (* the engine instance *)
  stdout : list string       (* the lines printed so far *)
}.

Definition Py (A : Type) : Type := State → outcome A * State.

Global Instance Py_ret : MRet Py := λ A a st, (Return a, st).

Global Instance Py_bind : MBind Py := λ A B f m st,
  match m st with
  | (Return a, st') => f a st'
  | (Raise e, st') => (Raise e, st')
  end.

Definition raise {A : Type} (e : exn) : Py A := λ st, (Raise e, st).

Definition lift {A : Type} (o : outcome A) : Py A := λ st, (o, st).

(** [print(line)] *)
Definition print (line : string) : Py unit := λ st,
  (Return (), {| frames := frames st; self := self st;
                 stdout := stdout st ++ [line] |}).

Definition empty_frame : DataFrame := {| columns := []; rows := [] |}.

(** Reading through a reference.  Every reference the code holds was
    allocated, so the default is never read. *)
Definition frame_at (st : State) (r : ref) : DataFrame :=
  default empty_frame (frames st !! r).

Definition deref (r : ref) : Py DataFrame := λ st, (Return (frame_at st r), st).

(** A new DataFrame object. *)
Definition alloc (df : DataFrame) : Py ref := λ st,
  (Return (length (frames st)),
   {| frames := frames st ++ [df]; self := self st; stdout := stdout st |}).

Definition get_self : Py DataProcessor := λ st, (Return (self st), st).

Definition set_self (p : DataProcessor) : Py unit := λ st,
  (Return (), {| frames := frames st; self := p; stdout := stdout st |}).

(** [for x in l: acc = body x acc] *)
Fixpoint for_in {A S : Type} (l : list A) (body : A → S → Py S) (acc : S) : Py S :=
  match l with
  | [] => mret acc
  | x :: l' => acc' ← body x acc; for_in l' body acc'
  end.

(** ** [DataProcessor] *)

(** [__init__] *)
Definition init : DataProcessor := {| datasets := []; categories := [] |}.

(** [add_datasets(self, catergory, df)] *)
Definition add_datasets (catergory : string) (df : ref) : Py unit :=
  p ← get_self;
  set_self {| datasets := dict_set catergory df (datasets p);
              categories := categories p ++ [catergory] |}.

(** [filter_data(df, nutrient, operator, value)], a static method. *)
Definition filter_data (df : ref) (nutrient operator : string) (value : operand)
  : Py ref :=
  if decide (operator = ">") then
    d ← deref df;
    col ← lift (getitem d nutrient);
    mask ← lift (compare_series F64.gt col value);
    alloc (getitem_mask d mask)
  else if decide (operator = "<") then
    d ← deref df;
    col ← lift (getitem d nutrient);
    mask ← lift (compare_series F64.lt col value);
    alloc (getitem_mask d mask)
  else if decide (operator = "==") then
    d ← deref df;
    col ← lift (getitem d nutrient);
    mask ← lift (compare_series F64.eq col value);
    alloc (getitem_mask d mask)
  else if decide (operator = "between") then
    d ← deref df;
    col ← lift (getitem d nutrient);
    lo ← lift (subscript value 0);
    hi ← lift (subscript value 1);
    alloc (getitem_mask d (between col lo hi))
  else
    _ ← print "operator not recognized.";
    mret df.

(** [self.datasets[catergory]] *)
Definition datasets_getitem (p : DataProcessor) (catergory : string) : Py ref :=
  match dict_get catergory (datasets p) with
  | Some r => mret r
  | None => raise (KeyError catergory)
  end.

(** [filter_dataset(self, catergory, nutrient, operator, value)] *)
Definition filter_dataset (catergory nutrient operator : string) (value : operand)
  : Py ref :=
  p ← get_self;
  if decide (catergory ∈ categories p) then
    df ← datasets_getitem p catergory;
    filter_data df nutrient operator value
  else
    raise (ValueError ("'" +:+ catergory +:+ "' not found in datasets")).

(** [filter_datasets(self, nutrient, operator, value, categories=None)] *)
Definition filter_datasets (nutrient operator : string) (value : operand)
    (cats : option (list string)) : Py (dict ref) :=
  p ← get_self;
  let cats := match cats with None => categories p | Some l => l end in
  for_in cats
    (λ catergory filtered_datasets,
       df ← datasets_getitem p catergory;
       r ← filter_data df nutrient operator value;
       mret (dict_set catergory r filtered_datasets))
    [].

(** ** What the engine takes from pandas, NumPy and the interpreter

    The aggregates of a Series, [DataFrame.describe] and the built-in
    [round] are library code.  The engine is defined over any
    implementation of them; [Reference.runtime] below is one. *)

Class Runtime := {
  series_sum : Series → float;                (* s.sum() *)
  series_mean : Series → float;               (* s.mean() *)
  series_median : Series → float;             (* s.median() *)
  series_std : Series → float;                (* s.std() *)
  series_min : Series → float;                (* s.min() *)
  series_max : Series → float;                (* s.max() *)
  series_quantile : Series → float → float;   (* s.quantile(q) *)
  py_round : float → Z → float;               (* round(x, ndigits) *)
  describe : DataFrame → outcome DataFrame    (* df.describe() *)
}.

(** [s.count()]: the number of cells that are not missing. *)
Definition series_count (s : Series) : nat := length (List.filter F64.notna s).

(** The values stored in a comparison record: [int(...)], [round(...)]
    or [np.nan]. *)
Inductive pyval : Type :=
| PyInt (n : Z)
| PyFloat (x : float).

(** An entry of the result of [calculate_descriptive_stats]: the dictionary
    with the keys ['describe'] and ['ratio']. *)
Record CategoryStats := mkStats {
  stats_describe : DataFrame;
  stats_ratio : dict float
}.

(** [set.intersection( *sets )] *)
Definition set_intersection (sets : list (gset string)) : outcome (gset string) :=
  match sets with
  | [] => Raise (TypeError "unbound method set.intersection() needs an argument")
  | s :: sets' => Return (foldl (∩) s sets')
  end.

Section Engine.
Context `{Runtime}.

(** [calculate_descriptive_stats(self)] *)
Definition calculate_descriptive_stats : Py (dict CategoryStats) :=
  p ← get_self;
  for_in (datasets p)
    (λ '(category, r) stats,
       nutrient ← deref r;
       d ← lift (describe nutrient);
       ratio ←
         (if has_column nutrient "Fat" && has_column nutrient "Protein"
             && has_column nutrient "Carb"
          then
            fat ← lift (getitem nutrient "Fat");
            protein ← lift (getitem nutrient "Protein");
            carb ← lift (getitem nutrient "Carb");
            let fat_sum := series_sum fat in
            let protein_sum := series_sum protein in
            let carb_sum := series_sum carb in
            mret [("fat_to_protein", PrimFloat.div fat_sum protein_sum);
                  ("protein_to_carb", PrimFloat.div protein_sum carb_sum);
                  ("carb_to_fat", PrimFloat.div carb_sum fat_sum)]
          else mret []);
       mret (dict_set category
               {| stats_describe := d; stats_ratio := ratio |} stats))
    [].

(** The record of a nutrient that the category has. *)
Definition present_record (s : Series) : dict pyval :=
  [("count", PyInt (Z.of_nat (series_count s)));
   ("mean", PyFloat (py_round (series_mean s) 2));
   ("median", PyFloat (py_round (series_median s) 2));
   ("std", PyFloat (py_round (series_std s) 2));
   ("min", PyFloat (py_round (series_min s) 2));
   ("max", PyFloat (py_round (series_max s) 2));
   ("25%", PyFloat (py_round (series_quantile s 0.25) 2));
   ("50%", PyFloat (py_round (series_quantile s 0.5) 2));
   ("75%", PyFloat (py_round (series_quantile s 0.75) 2))].

(** The record of a nutrient that the category lacks. *)
Definition absent_record : dict pyval :=
  [("count", PyFloat F64.nan);
   ("mean", PyFloat F64.nan);
   ("median", PyFloat F64.nan);
   ("std", PyFloat F64.nan);
   ("min", PyFloat F64.nan);
   ("max", PyFloat F64.nan);
   ("25%", PyFloat F64.nan);
   ("50%", PyFloat F64.nan);
   ("75%", PyFloat F64.nan)].

(** The inner loop of [compare_datasets], for one category. *)
Definition compare_category (df : DataFrame) (nutrients : list string)
  : Py (dict (dict pyval)) :=
  for_in nutrients
    (λ nutrient entry,
       if has_column df nutrient then
         s ← lift (getitem df nutrient);
         mret (dict_set nutrient (present_record s) entry)
       else
         mret (dict_set nutrient absent_record entry))
    [].

(** [compare_datasets(self, nutrients=None)]; the result [None] of the
    bare [return] is [None] here. *)
Definition compare_datasets (nutrients : option (list string))
  : Py (option (dict (dict (dict pyval)))) :=
  p ← get_self;
  if decide (dict_len (datasets p) < 2) then
    _ ← print "Need at least 2 datasets to compare.";
    mret None
  else
    nutrients ←
      match nutrients with
      | Some l => mret l
      | None =>
          all_cols ← for_in (dict_values (datasets p))
                       (λ r (acc : list (gset string)),
                          df ← deref r;
                          mret (acc ++ [list_to_set (columns df)]))
                       [];
          common ← lift (set_intersection all_cols);
          mret (elements common)
      end;
    comparison ← for_in (datasets p)
                   (λ '(category, r) comparison,
                      df ← deref r;
                      entry ← compare_category df nutrients;
                      mret (dict_set category entry comparison))
                   [];
    mret (Some comparison).

End Engine.

(** ** A runtime to run the engine on

    The textbook definitions of the aggregates in binary64 arithmetic,
    missing cells skipped, sums taken in row order.  The properties of the
    engine hold for every runtime; this one evaluates it on examples. *)

Module Reference.

Definition of_nat (n : nat) : float :=
  PrimFloat.of_uint63 (Uint63.of_Z (Z.of_nat n)).

Definition dropna (s : Series) : Series := List.filter F64.notna s.

Definition sum (s : Series) : float := foldl PrimFloat.add 0%float (dropna s).

Definition mean (s : Series) : float :=
  PrimFloat.div (sum s) (of_nat (length (dropna s))).

Definition extremum (better : float → float → bool) (s : Series) : float :=
  match dropna s with
  | [] => F64.nan
  | x :: l => foldl (λ a y, if better y a then y else a) x l
  end.

Definition min : Series → float := extremum F64.lt.
Definition max : Series → float := extremum F64.gt.

Fixpoint insert_sorted (x : float) (l : list float) : list float :=
  match l with
  | [] => [x]
  | y :: l' => if F64.le x y then x :: l else y :: insert_sorted x l'
  end.

Definition sort (l : list float) : list float := foldr insert_sorted [] l.

(** The largest [k] below [n] with [k <= pos], from [k = 0] upwards. *)
Fixpoint floor_below (n : nat) (pos : float) : nat :=
  match n with
  | 0 => 0
  | S n' => if F64.le (of_nat n) pos then n else floor_below n' pos
  end.

(** Linear interpolation between the two closest ranks. *)
Definition quantile (s : Series) (q : float) : float :=
  let v := sort (dropna s) in
  match length v with
  | 0 => F64.nan
  | S top =>
      let pos := PrimFloat.mul q (of_nat top) in
      let lo := floor_below top pos in
      let a := default F64.nan (v !! lo) in
      let b := default a (v !! S lo) in
      PrimFloat.add a (PrimFloat.mul (PrimFloat.sub b a)
                                     (PrimFloat.sub pos (of_nat lo)))
  end.

Definition median (s : Series) : float := quantile s 0.5.

(** The sample standard deviation, with denominator [n - 1]. *)
Definition std (s : Series) : float :=
  let m := mean s in
  let sq := (λ x, PrimFloat.mul (PrimFloat.sub x m) (PrimFloat.sub x m)) <$> dropna s in
  PrimFloat.sqrt (PrimFloat.div (sum sq) (of_nat (length (dropna s) - 1))).

(** Rounding to the nearest integer, ties to even. *)
Definition rint (y : float) : float :=
  if F64.lt (PrimFloat.abs y) 0x1p52%float then
    if F64.lt y 0 then
      PrimFloat.add (PrimFloat.sub y 0x1p52%float) 0x1p52%float
    else
      PrimFloat.sub (PrimFloat.add y 0x1p52%float) 0x1p52%float
  else y.

Definition round (x : float) (ndigits : Z) : float :=
  let scale := PrimFloat.of_uint63 (Uint63.of_Z (10 ^ ndigits)) in
  PrimFloat.div (rint (PrimFloat.mul x scale)) scale.

Definition describe_rows : list (string * (Series → float)) :=
  [("count", λ s, of_nat (series_count s));
   ("mean", mean);
   ("std", std);
   ("min", min);
   ("25%", λ s, quantile s 0.25);
   ("50%", λ s, quantile s 0.5);
   ("75%", λ s, quantile s 0.75);
   ("max", max)].

Definition describe (df : DataFrame) : outcome DataFrame :=
  match columns df with
  | [] => Raise (ValueError "Cannot describe a DataFrame without columns")
  | _ =>
      Return
        {| columns := columns df;
           rows := (λ '(name, stat),
                      {| label := name;
                         cells := (λ i, stat (cell i <$> rows df))
                                    <$> seq 0 (length (columns df)) |})
                   <$> describe_rows |}
  end.

Definition runtime : Runtime :=
  Build_Runtime sum mean median std min max quantile round describe.

End Reference.

(** ** [DataVisualizer.print_comparison]

    The caller of [compare_datasets] in [src/data_visualizer.py].  What it
    takes from the libraries is [str.upper] and the text that printing
    [pd.DataFrame(to_print)] produces. *)

Class Display := {
  str_upper : string → string;                  (* s.upper() *)
  frame_repr : dict (dict pyval) → string       (* str(pd.DataFrame(d)) *)
}.

(** ["\n"] *)
Definition newline : string := String (Ascii.ascii_of_nat 10) "".

(** [s * n] *)
Fixpoint str_times (s : string) (n : nat) : string :=
  match n with
  | 0 => ""
  | S n' => s +:+ str_times s n'
  end.

(** [d[k]] *)
Definition dict_getitem {V : Type} (k : string) (d : dict V) : outcome V :=
  match dict_get k d with
  | Some v => Return v
  | None => Raise (KeyError k)
  end.

(** [l[0]] *)
Definition list_first {A : Type} (l : list A) : outcome A :=
  match l with
  | x :: _ => Return x
  | [] => Raise (IndexError "list index out of range")
  end.

(** The metrics displayed when the caller names none. *)
Definition default_metrics : list string :=
  ["count"; "mean"; "std"; "min"; "max"; "25%"; "50%"; "75%"].

Section Visualizer.
Context `{Display}.

(** The table of one metric: [to_print] after the loops over the
    categories and the nutrients. *)
Definition metric_table (comparison_dict : dict (dict (dict pyval)))
    (categories nutrients : list string) (metric : string)
  : Py (dict (dict pyval)) :=
  for_in categories
    (λ category to_print,
       column ← for_in nutrients
                  (λ nutrient column,
                     by_category ← lift (dict_getitem category comparison_dict);
                     by_nutrient ← lift (dict_getitem nutrient by_category);
                     v ← lift (dict_getitem metric by_nutrient);
                     mret (dict_set nutrient v column))
                  [];
       mret (dict_set category column to_print))
    [].

(** [print_comparison(self, comparison_dict, metrics=None)]; the argument
    is what [compare_datasets] returned, a dictionary or [None]. *)
Definition print_comparison (comparison_dict : option (dict (dict (dict pyval))))
    (metrics : option (list string)) : Py unit :=
  match comparison_dict with
  | None => raise (TypeError "object of type 'NoneType' has no len()")
  | Some comparison_dict =>
      if decide (dict_len comparison_dict = 0) then
        print "No comparison data to display."
      else
        _ ← print newline;
        _ ← print (str_times "=" 80);
        _ ← print "DATASETS COMPARISON";
        _ ← print (str_times "=" 80);
        let metrics := match metrics with None => default_metrics | Some l => l end in
        let categories := dict_keys comparison_dict in
        first ← lift (list_first categories);
        first_entry ← lift (dict_getitem first comparison_dict);
        let nutrients := dict_keys first_entry in
        _ ← for_in metrics
              (λ metric (_ : unit),
                 to_print ← metric_table comparison_dict categories nutrients metric;
                 _ ← print newline;
                 _ ← print (str_times "-" 80);
                 _ ← print (str_upper metric +:+ " COMPARISON");
                 _ ← print (str_times "-" 80);
                 print (frame_repr to_print))
              ();
        print newline
  end.

End Visualizer.

(** A display to run the printer on: [upper] on ASCII letters, and a
    stand-in for the text of a DataFrame that lists its columns. *)
Module Plain.

Definition upper_ascii (a : Ascii.ascii) : Ascii.ascii :=
  let n := Ascii.nat_of_ascii a in
  if (97 <=? n)%nat && (n <=? 122)%nat then Ascii.ascii_of_nat (n - 32) else a.

Fixpoint upper (s : string) : string :=
  match s with
  | EmptyString => EmptyString
  | String a s' => String (upper_ascii a) (upper s')
  end.

Definition repr (d : dict (dict pyval)) : string :=
  foldr (λ k acc, k +:+ " " +:+ acc) "" (dict_keys d).

Definition display : Display := Build_Display upper repr.

End Plain.

(** ** Tables and states used as concrete inputs *)

Module Sample.

(** Calories = [100, 300, 500], with a missing Fat cell in the last row. *)
Definition menu : DataFrame :=
  {| columns := ["Calories"; "Fat"; "Protein"; "Carb"];
     rows := [ {| label := "Bagel"; cells := [100; 2; 1; 1]%float |};
               {| label := "Muffin"; cells := [300; 4; 1; 3]%float |};
               {| label := "Scone"; cells := [500; F64.nan; 2; 3]%float |} ] |}.

(** Fat = [2, 4], Protein = [1, 1], Carb = [1, 3]. *)
Definition snacks : DataFrame :=
  {| columns := ["Fat"; "Protein"; "Carb"];
     rows := [ {| label := "Bar"; cells := [2; 1; 1]%float |};
               {| label := "Cake"; cells := [4; 1; 3]%float |} ] |}.

(** A table without a Protein column. *)
Definition teas : DataFrame :=
  {| columns := ["Calories"; "Fat"; "Carb"; "Sodium"];
     rows := [ {| label := "Chai"; cells := [120; 0; 25; 10]%float |};
               {| label := "Mint"; cells := [0; 0; 0; F64.nan]%float |} ] |}.

(** The three tables loaded, nothing registered. *)
Definition loaded : State :=
  {| frames := [menu; snacks; teas]; self := init; stdout := [] |}.

(** After [add_datasets('food', menu)]. *)
Definition one_category : State := (add_datasets "food" 0 loaded).2.

(** After [add_datasets('food', menu)] twice. *)
Definition food_twice : State := (add_datasets "food" 0 one_category).2.

(** After [add_datasets('food', menu)] and [add_datasets('drinks', teas)]. *)
Definition two_categories : State := (add_datasets "drinks" 2 one_category).2.

(** After [add_datasets('snacks', snacks)] and [add_datasets('food', menu)]. *)
Definition snacks_and_food : State :=
  (add_datasets "food" 0 (add_datasets "snacks" 1 loaded).2).2.

End Sample.

(** ** The statements of the specification, as predicates *)

(** The operators that [filter_data] recognizes. *)
Definition recognized : list string := [">"; "<"; "=="; "between"].

(** An operand of the shape the operator is documented to take: a number
    for the three comparisons, a pair for ["between"]. *)
Definition well_typed (operator : string) (value : operand) : Prop :=
  match value with
  | Scalar _ => operator ∈ [">"; "<"; "=="]
  | Pair _ _ => operator = "between"
  end.

(** The predicate that a recognized operator and a well-typed operand put
    on a cell. *)
Definition satisfies (operator : string) (value : operand) (v : float) : bool :=
  match value with
  | Scalar x =>
      if decide (operator = ">") then F64.gt v x
      else if decide (operator = "<") then F64.lt v x
      else F64.eq v x
  | Pair lo hi => F64.le lo v && F64.le v hi
  end.

(** The nine fields of a comparison record. *)
Definition nine_fields : list string :=
  ["count"; "mean"; "median"; "std"; "min"; "max"; "25%"; "50%"; "75%"].

(** A record with the nine fields, all missing. *)
Definition all_missing (record : dict pyval) : Prop :=
  dict_keys record = nine_fields ∧
  ∀ field, field ∈ nine_fields → dict_get field record = Some (PyFloat F64.nan).

(** A record with the nine fields, an integer count and every other field
    the result of [round(_, 2)]. *)
Definition count_and_rounded `{Runtime} (record : dict pyval) : Prop :=
  dict_keys record = nine_fields ∧
  (∃ n : Z, dict_get "count" record = Some (PyInt n)) ∧
  ∀ field, field ∈ nine_fields → field ≠ "count" →
    ∃ x : float, dict_get field record = Some (PyFloat (py_round x 2)).

(** The state after a sequence of [add_datasets] calls. *)
Fixpoint register_all (calls : list (string * ref)) (st : State) : State :=
  match calls with
  | [] => st
  | (category, df) :: calls' => register_all calls' (add_datasets category df st).2
  end.

(** The dictionary that a loop of assignments [acc[k] = v] builds. *)
Definition build {V : Type} (kvs : list (string * V)) (acc : dict V) : dict V :=
  foldl (λ acc kv, dict_set kv.1 kv.2 acc) acc kvs.

(** The three ratio names. *)
Definition ratio_names : list string :=
  ["fat_to_protein"; "protein_to_carb"; "carb_to_fat"].

(** The record that [compare_datasets] stores for a nutrient of a frame. *)
Definition record_of `{Runtime} (df : DataFrame) (nutrient : string) : dict pyval :=
  match getitem df nutrient with
  | Return s => present_record s
  | Raise _ => absent_record
  end.

(** The ['ratio'] dictionary that [calculate_descriptive_stats] stores for
    a frame. *)
Definition ratio_of `{Runtime} (df : DataFrame) : dict float :=
  match getitem df "Fat", getitem df "Protein", getitem df "Carb" with
  | Return fat, Return protein, Return carb =>
      [("fat_to_protein", PrimFloat.div (series_sum fat) (series_sum protein));
       ("protein_to_carb", PrimFloat.div (series_sum protein) (series_sum carb));
       ("carb_to_fat", PrimFloat.div (series_sum carb) (series_sum fat))]
  | _, _, _ => []
  end.

(** The entry that [calculate_descriptive_stats] stores for a frame that
    [describe] accepts. *)
Definition stats_of `{Runtime} (df : DataFrame) : CategoryStats :=
  {| stats_describe :=
       match describe df with Return d => d | Raise _ => empty_frame end;
     stats_ratio := ratio_of df |}.

(** The frame that a well-typed criterion on the column at position [i]
    derives from a frame. *)
Definition filtered (d : DataFrame) (i : nat) (operator : string) (value : operand)
  : DataFrame :=
  {| columns := columns d;
     rows := List.filter (λ r, satisfies operator value (cell i r)) (rows d) |}.

(** A state with another engine in it. *)
Definition with_self (p : DataProcessor) (st : State) : State :=
  {| frames := frames st; self := p; stdout := stdout st |}.

(** A state in which one registered frame has no column at all. *)
Module Edge.

Definition bare : DataFrame :=
  {| columns := []; rows := [ {| label := "Water"; cells := [] |} ] |}.

Definition food_and_water : State :=
  (add_datasets "water" 1
     (add_datasets "food" 0
        {| frames := [Sample.menu; bare]; self := init; stdout := [] |}).2).2.

End Edge.

(** The number of columns that carry a label.  [getitem] models [df[c]]
    for a label that one column carries; with several, [df[c]] is a
    DataFrame and the code takes other paths. *)
Definition label_count (c : string) (cols : list string) : nat :=
  length (List.filter (λ c', bool_decide (c' = c)) cols).

(** The column labels of every registered frame are distinct, as the
    data model has them. *)
Definition distinct_labels (st : State) : Prop :=
  ∀ c r, dict_get c (datasets (self st)) = Some r →
         NoDup (columns (frame_at st r)).

(** ** Order facts of binary64 comparison *)

Section SpecFloat.
Implicit Types a b c : spec_float.

Lemma SFcompare_nan_r a : SFcompare a S754_nan = None.
Proof. by destruct a. Qed.

Lemma SFcompare_refl a : a ≠ S754_nan → SFcompare a a = Some Eq.
Proof.
  destruct a as [s|s| |s m e]; intros Hn; try done; simpl.
  - by destruct s.
  - rewrite Z.compare_refl.
    change (Pos.compare_cont Eq m m) with (Pos.compare m m).
    rewrite Pos.compare_refl. by destruct s.
Qed.

Lemma SFleb_trans a b c :
  SFleb a b = true → SFleb b c = true → SFleb a c = true.
Proof.
  unfold SFleb.
  destruct a as [sa|sa| |sa ma ea], b as [sb|sb| |sb mb eb],
           c as [sc|sc| |sc mc ec];
    simpl; try done;
    repeat match goal with s : bool |- _ => destruct s end; simpl; try done.
  all: change (Pos.compare_cont Eq ?x ?y) with (Pos.compare x y).
  all: destruct (Z.compare_spec ea eb), (Z.compare_spec eb ec),
         (Z.compare_spec ea ec); simpl; try done; try lia.
  all: destruct (Pos.compare_spec ma mb), (Pos.compare_spec mb mc),
         (Pos.compare_spec ma mc); simpl; try done; try lia.
Qed.

Lemma SFleb_not_ltb a b : SFleb a b = true → SFltb b a = false.
Proof.
  unfold SFleb, SFltb.
  destruct a as [sa|sa| |sa ma ea], b as [sb|sb| |sb mb eb];
    simpl; try done;
    repeat match goal with s : bool |- _ => destruct s end; simpl; try done.
  all: change (Pos.compare_cont Eq ?x ?y) with (Pos.compare x y).
  all: destruct (Z.compare_spec ea eb), (Z.compare_spec eb ea);
         simpl; try done; try lia.
  all: destruct (Pos.compare_spec ma mb), (Pos.compare_spec mb ma);
         simpl; try done; try lia.
Qed.
End SpecFloat.

Section F64Facts.
Implicit Types x y z : float.

Lemma isna_spec x : F64.isna x = true → Prim2SF x = S754_nan.
Proof.
  unfold F64.isna, PrimFloat.is_nan. rewrite FloatAxioms.eqb_spec. unfold SFeqb.
  intros Hx. destruct (Prim2SF x) as [s|s| |s m e] eqn:E; [| |done|];
    by rewrite SFcompare_refl in Hx.
Qed.

Lemma gt_isna x y : F64.isna x = true → F64.gt x y = false.
Proof.
  intros Hx%isna_spec. unfold F64.gt. rewrite FloatAxioms.ltb_spec, Hx.
  unfold SFltb. by rewrite SFcompare_nan_r.
Qed.

Lemma lt_isna x y : F64.isna x = true → F64.lt x y = false.
Proof. intros Hx%isna_spec. unfold F64.lt. by rewrite FloatAxioms.ltb_spec, Hx. Qed.

Lemma eq_isna x y : F64.isna x = true → F64.eq x y = false.
Proof. intros Hx%isna_spec. unfold F64.eq. by rewrite FloatAxioms.eqb_spec, Hx. Qed.

Lemma le_isna_r x y : F64.isna y = true → F64.le x y = false.
Proof.
  intros Hy%isna_spec. unfold F64.le. rewrite FloatAxioms.leb_spec, Hy.
  unfold SFleb. by rewrite SFcompare_nan_r.
Qed.

Lemma le_isna_l x y : F64.isna x = true → F64.le x y = false.
Proof. intros Hx%isna_spec. unfold F64.le. by rewrite FloatAxioms.leb_spec, Hx. Qed.

(** Nothing lies between [lo] and [hi] when [lo > hi]. *)
Lemma le_le_not_gt lo v hi :
  F64.le lo v = true → F64.le v hi = true → F64.gt lo hi = false.
Proof.
  unfold F64.le, F64.gt. rewrite !FloatAxioms.leb_spec, FloatAxioms.ltb_spec. intros H1 H2.
  apply SFleb_not_ltb. by eapply SFleb_trans.
Qed.

Lemma satisfies_isna operator value v :
  F64.isna v = true → satisfies operator value v = false.
Proof.
  intros Hv. destruct value as [x|lo hi]; simpl.
  - repeat case_decide; auto using gt_isna, lt_isna, eq_isna.
  - by rewrite le_isna_r.
Qed.
End F64Facts.

(** ** Dictionaries *)

Section DictFacts.
Context {V : Type}.
Implicit Types (d : dict V) (k : string) (v : V).

Lemma dict_get_set_eq k v d : dict_get k (dict_set k v d) = Some v.
Proof.
  induction d as [|[k' v'] d IH]; simpl.
  - by rewrite decide_True.
  - destruct (decide (k = k')) as [->|Hne]; simpl.
    + by rewrite decide_True.
    + by rewrite decide_False.
Qed.

Lemma dict_get_set_ne k k' v d :
  k ≠ k' → dict_get k' (dict_set k v d) = dict_get k' d.
Proof.
  intros Hne. induction d as [|[k0 v0] d IH]; simpl.
  - by rewrite decide_False.
  - destruct (decide (k = k0)) as [->|Hne0]; simpl.
    + by rewrite !decide_False.
    + by rewrite IH.
Qed.

(** A key is added, at the end, only when it is new. *)
Lemma dict_keys_set k v d :
  dict_keys (dict_set k v d) =
    if decide (k ∈ dict_keys d) then dict_keys d else dict_keys d ++ [k].
Proof.
  unfold dict_keys. induction d as [|[k' v'] d IH].
  - rewrite decide_False by apply not_elem_of_nil. done.
  - cbn [dict_set fmap list_fmap fst].
    destruct (decide (k = k')) as [->|Hne]; cbn [fmap list_fmap fst].
    + rewrite (decide_True (P := k' ∈ k' :: d.*1)) by (apply elem_of_cons; by left).
      done.
    + rewrite IH. destruct (decide (k ∈ d.*1)) as [Hin|Hnin].
      * rewrite decide_True by (apply elem_of_cons; by right). done.
      * rewrite decide_False; [done|]. by intros [?|?]%elem_of_cons.
Qed.

Lemma dict_wf_set k v d : dict_wf d → dict_wf (dict_set k v d).
Proof.
  unfold dict_wf. rewrite dict_keys_set. intros Hwf.
  case_decide; [done|].
  apply NoDup_app. split_and!; [done| |apply NoDup_singleton].
  intros x Hx ->%list_elem_of_singleton. done.
Qed.

Lemma elem_of_dict_keys_set k k' v d :
  k' ∈ dict_keys (dict_set k v d) ↔ k' = k ∨ k' ∈ dict_keys d.
Proof.
  rewrite dict_keys_set. case_decide.
  - split; [by right|]. intros [->|?]; done.
  - rewrite elem_of_app, list_elem_of_singleton. tauto.
Qed.

Lemma dict_get_Some_keys k v d : dict_get k d = Some v → k ∈ dict_keys d.
Proof.
  unfold dict_keys. induction d as [|[k' v'] d IH]; simpl; [done|].
  case_decide as Hk; [subst; intros _; apply elem_of_cons; by left|].
  intros Hg. apply elem_of_cons; right. by apply IH.
Qed.

Lemma dict_get_None_keys k d : dict_get k d = None ↔ k ∉ dict_keys d.
Proof.
  unfold dict_keys. induction d as [|[k' v'] d IH]; simpl.
  - split; [intros _; apply not_elem_of_nil|done].
  - case_decide as Hk.
    + subst. split; [done|]. intros Hn. exfalso. apply Hn, elem_of_cons; by left.
    + rewrite IH, elem_of_cons. split; [intros ? [?|?]; done|tauto].
Qed.

Lemma dict_get_elem_of k v d : dict_get k d = Some v → (k, v) ∈ d.
Proof.
  induction d as [|[k' v'] d IH]; simpl; [done|].
  case_decide as Hk.
  - intros [= ->]. subst. apply elem_of_cons; by left.
  - intros Hg. apply elem_of_cons; right. by apply IH.
Qed.

End DictFacts.

(** ** Boolean indexing *)

Section Select.
Context {A : Type}.
Implicit Types (l : list A) (mask : list bool).

Lemma select_sublist l mask : select l mask `sublist_of` l.
Proof.
  revert mask. induction l as [|x l IH]; intros [|[] mask]; simpl;
    auto using sublist_nil_l, sublist_skip, sublist_cons.
Qed.

Lemma select_fmap (f : A → bool) l : select l (f <$> l) = List.filter f l.
Proof.
  induction l as [|x l IH]; csimpl; [done|]. rewrite IH. by destruct (f x).
Qed.

Lemma elem_of_select x l mask :
  x ∈ select l mask → ∃ k, l !! k = Some x ∧ mask !! k = Some true.
Proof.
  revert mask. induction l as [|y l IH]; intros [|b mask]; simpl;
    try (by intros ?%elem_of_nil).
  destruct b.
  - intros [->|Hin]%elem_of_cons; [by exists 0|].
    destruct (IH _ Hin) as (k & ? & ?). by exists (S k).
  - intros Hin. destruct (IH _ Hin) as (k & ? & ?). by exists (S k).
Qed.

End Select.

(** ** The store *)

Lemma frame_at_snoc st fs df :
  frames st = fs ++ [df] → frame_at st (length fs) = df.
Proof. intros Hfs. unfold frame_at. by rewrite Hfs, list_lookup_middle. Qed.

Lemma frame_at_alloc_new st df :
  frame_at (alloc df st).2 (length (frames st)) = df.
Proof. unfold frame_at. simpl. by rewrite list_lookup_middle. Qed.

Lemma position_Some_elem_of c cols i : position c cols = Some i → c ∈ cols.
Proof.
  revert i. induction cols as [|c' cols IH]; intros i; simpl; [done|].
  case_decide as Hc; [subst; intros _; apply elem_of_cons; by left|].
  destruct (position c cols) eqn:E; [|done].
  intros _. apply elem_of_cons; right. by eapply IH.
Qed.

Lemma position_None c cols : position c cols = None ↔ c ∉ cols.
Proof.
  induction cols as [|c' cols IH]; simpl.
  - split; [intros _; apply not_elem_of_nil|done].
  - case_decide as Hc.
    + subst. split; [done|]. intros Hn. exfalso. apply Hn, elem_of_cons; by left.
    + destruct (position c cols) as [n|] eqn:E; simpl.
      * split; [done|]. intros Hn. exfalso. apply Hn, elem_of_cons. right.
        by eapply position_Some_elem_of.
      * split; [|done]. intros _ [?|Hin]%elem_of_cons; [done|].
        by apply (proj1 IH eq_refl).
Qed.

Lemma getitem_position df c i :
  position c (columns df) = Some i → getitem df c = Return (cell i <$> rows df).
Proof. unfold getitem. by intros ->. Qed.

Lemma getitem_absent df c : c ∉ columns df → getitem df c = Raise (KeyError c).
Proof. unfold getitem. by intros ->%position_None. Qed.

(** ** [filter_data] *)

Ltac operator_cases H :=
  unfold recognized in H;
  repeat (apply elem_of_cons in H as [->|H]);
  [ | | | | by apply elem_of_nil in H ].

Ltac run_py :=
  unfold mbind, Py_bind, mret, Py_ret, deref, lift, raise; simpl.

(** A recognized operator on a label that is not a column: [KeyError]
    from [df[nutrient]], before the operand is looked at. *)
Lemma filter_data_KeyError df nutrient operator value st :
  operator ∈ recognized →
  nutrient ∉ columns (frame_at st df) →
  filter_data df nutrient operator value st = (Raise (KeyError nutrient), st).
Proof.
  intros Hop Hcol. operator_cases Hop; unfold filter_data; simpl;
    run_py; by rewrite (getitem_absent _ _ Hcol).
Qed.

(** A recognized operator on a column: either the operand has the wrong
    shape and the call raises, or a new frame is allocated from a mask
    that is false on missing cells, and that is the documented predicate
    when the operand has the documented shape. *)
Lemma filter_data_recognized df nutrient operator value st i :
  operator ∈ recognized →
  position nutrient (columns (frame_at st df)) = Some i →
  let d := frame_at st df in
  let col := cell i <$> rows d in
  (¬ well_typed operator value ∧
   ∃ e, filter_data df nutrient operator value st = (Raise e, st))
  ∨ (∃ mask,
       filter_data df nutrient operator value st = alloc (getitem_mask d mask) st
       ∧ (∀ k v, col !! k = Some v → F64.isna v = true → mask !! k = Some false)
       ∧ (well_typed operator value → mask = satisfies operator value <$> col)).
Proof.
  intros Hop Hpos d col.
  assert (Hscalar : ∀ (op : float → float → bool) x,
            (∀ a b, F64.isna a = true → op a b = false) →
            ∀ k v, col !! k = Some v → F64.isna v = true →
                   ((λ a, op a x) <$> col) !! k = Some false).
  { intros op x Hna k v Hk Hv. rewrite list_lookup_fmap, Hk. simpl. by rewrite Hna. }
  assert (Hpair : ∀ (op : float → float → bool) lo hi,
            (∀ a b, F64.isna a = true → op a b = false) →
            (∃ e, compare_series op col (Pair lo hi) = Raise e) ∨
            (∃ mask, compare_series op col (Pair lo hi) = Return mask ∧
               ∀ k v, col !! k = Some v → F64.isna v = true → mask !! k = Some false)).
  { intros op lo hi Hna. simpl. destruct col as [|a [|b [|c col']]]; eauto.
    right. eexists; split; [done|]. intros [|[|k]] v; simpl; try done.
    - intros [= ->] Hv. by rewrite Hna.
    - intros [= ->] Hv. by rewrite Hna. }
  operator_cases Hop; unfold filter_data; simpl; run_py;
    rewrite (getitem_position _ _ _ Hpos); fold d; fold col.
  - (* > *)
    destruct value as [x|lo hi].
    + right. eexists; split; [done|]. split; [by apply Hscalar, gt_isna|done].
    + destruct (Hpair F64.gt lo hi gt_isna) as [[e ->]|(mask & -> & Hm)].
      * left. split; [simpl; done|by eexists].
      * right. eexists; split; [done|]. split; [done|]. simpl. done.
  - (* < *)
    destruct value as [x|lo hi].
    + right. eexists; split; [done|]. split; [by apply Hscalar, lt_isna|done].
    + destruct (Hpair F64.lt lo hi lt_isna) as [[e ->]|(mask & -> & Hm)].
      * left. split; [simpl; done|by eexists].
      * right. eexists; split; [done|]. split; [done|]. simpl. done.
  - (* == *)
    destruct value as [x|lo hi].
    + right. eexists; split; [done|]. split; [by apply Hscalar, eq_isna|done].
    + destruct (Hpair F64.eq lo hi eq_isna) as [[e ->]|(mask & -> & Hm)].
      * left. split; [simpl; done|by eexists].
      * right. eexists; split; [done|]. split; [done|]. simpl. done.
  - (* between *)
    destruct value as [x|lo hi]; simpl.
    + left. split; [|by eexists]. simpl. intros Hin.
      repeat (apply elem_of_cons in Hin as [?|Hin]; [done|]).
      by apply elem_of_nil in Hin.
    + right. eexists; split; [done|]. split; [|done].
      intros k v Hk Hv. unfold between. rewrite list_lookup_fmap, Hk. simpl.
      by rewrite (le_isna_l v hi Hv), andb_false_r.
Qed.

(** ** Filtering: the claims *)

(** C1, as stated, fails: on the sample menu the operator ["!="] is not one
    of the four, and [filter_data] returns the very frame it was given
    instead of raising. *)
Lemma unrecognized_operator_does_not_fail :
  ("!=" ∉ recognized) ∧
  (filter_data 0 "Calories" "!=" (Scalar 300) Sample.loaded).1 = Return 0 ∧
  ¬ ∃ e, (filter_data 0 "Calories" "!=" (Scalar 300) Sample.loaded).1 = Raise e.
Proof.
  split; [compute_done|]. split; [reflexivity|]. intros [e He]. discriminate He.
Qed.

(** C1, amended: for every frame, every nutrient name (a column or not)
    and every operator that is not one of [>], [<], [==], [between],
    [filter_data] raises nothing: it prints "operator not recognized." and
    returns the reference it was given, the store and the engine being
    unchanged. *)
Theorem unrecognized_operator_returns_input df nutrient operator value st :
  operator ∉ recognized →
  filter_data df nutrient operator value st =
    (Return df, {| frames := frames st; self := self st;
                   stdout := stdout st ++ ["operator not recognized."] |}).
Proof.
  intros Hop. unfold filter_data, recognized in *.
  repeat case_decide; subst; try done; exfalso; apply Hop;
    repeat first [apply list_elem_of_here | apply list_elem_of_further].
Qed.

Lemma unrecognized_operator_returns_input_witness :
  ("~" ∉ recognized) ∧
  filter_data 1 "Fiber" "~" (Pair 1 2) Sample.two_categories =
    (Return 1, {| frames := frames Sample.two_categories;
                  self := self Sample.two_categories;
                  stdout := ["operator not recognized."] |}).
Proof.
  split; [compute_done|].
  apply (unrecognized_operator_returns_input 1 "Fiber" "~" (Pair 1 2)
           Sample.two_categories).
  compute_done.
Defined.

(** C5: for every frame, every recognized operator and every operand,
    filtering on a nutrient that is not a column of the frame raises, to the
    caller, the [KeyError] of [df[nutrient]] that names the nutrient, and
    the state is as before the call; [filter_dataset] on a registered
    category passes the same error on. *)
Theorem unknown_column_raises df nutrient operator value st :
  operator ∈ recognized →
  nutrient ∉ columns (frame_at st df) →
  filter_data df nutrient operator value st = (Raise (KeyError nutrient), st) ∧
  ∀ catergory,
    catergory ∈ categories (self st) →
    dict_get catergory (datasets (self st)) = Some df →
    filter_dataset catergory nutrient operator value st
      = (Raise (KeyError nutrient), st).
Proof.
  intros Hop Hcol. split; [by apply filter_data_KeyError|].
  intros catergory Hcat Hget. unfold filter_dataset, get_self. run_py.
  rewrite decide_True by done. unfold datasets_getitem. rewrite Hget.
  run_py. by apply filter_data_KeyError.
Qed.

Lemma unknown_column_raises_witness :
  (">" ∈ recognized) ∧
  ("Fiber" ∉ columns (frame_at Sample.two_categories 0)) ∧
  filter_data 0 "Fiber" ">" (Scalar 5) Sample.two_categories =
    (Raise (KeyError "Fiber"), Sample.two_categories) ∧
  ∀ catergory,
    catergory ∈ categories (self Sample.two_categories) →
    dict_get catergory (datasets (self Sample.two_categories)) = Some 0 →
    filter_dataset catergory "Fiber" ">" (Scalar 5) Sample.two_categories
      = (Raise (KeyError "Fiber"), Sample.two_categories).
Proof.
  split; [compute_done|]. split; [compute_done|].
  apply (unknown_column_raises 0 "Fiber" ">" (Scalar 5) Sample.two_categories);
    compute_done.
Defined.

(** C7: on a column of the frame, the only one with its label, ["between"]
    with the pair [(lo, hi)]
    returns a new frame with the same columns whose rows are exactly the
    rows with [lo <= v <= hi] for the cell [v] of the column, in order;
    when [lo > hi] no row is kept, the bounds are not swapped. *)
Theorem between_is_inclusive df nutrient lo hi st i :
  position nutrient (columns (frame_at st df)) = Some i →
  label_count nutrient (columns (frame_at st df)) = 1 →
  ∃ st',
    filter_data df nutrient "between" (Pair lo hi) st
      = (Return (length (frames st)), st') ∧
    columns (frame_at st' (length (frames st))) = columns (frame_at st df) ∧
    rows (frame_at st' (length (frames st))) =
      List.filter (λ r, F64.le lo (cell i r) && F64.le (cell i r) hi)
                  (rows (frame_at st df)) ∧
    (F64.gt lo hi = true → rows (frame_at st' (length (frames st))) = []).
Proof.
  intros Hpos _.
  destruct (filter_data_recognized df nutrient "between" (Pair lo hi) st i)
    as [[Hty _]|(mask & Hrun & _ & Hmask)]; [compute_done|done|by destruct Hty|].
  specialize (Hmask eq_refl). subst mask.
  eexists (alloc _ st).2; split; [by rewrite Hrun|].
  rewrite frame_at_alloc_new. simpl.
  rewrite <- list_fmap_compose, select_fmap.
  change (satisfies "between" (Pair lo hi) ∘ cell i)
    with (λ r, F64.le lo (cell i r) && F64.le (cell i r) hi).
  split; [done|]. split; [done|]. intros Hgt. clear Hrun Hpos.
  induction (rows (frame_at st df)) as [|r l IH]; simpl; [done|].
  destruct (F64.le lo (cell i r)) eqn:E1; simpl; [|done].
  destruct (F64.le (cell i r) hi) eqn:E2; simpl; [|done].
  by rewrite (le_le_not_gt _ _ _ E1 E2) in Hgt.
Qed.

Lemma between_is_inclusive_witness :
  position "Calories" (columns (frame_at Sample.loaded 0)) = Some 0 ∧
  label_count "Calories" (columns (frame_at Sample.loaded 0)) = 1 ∧
  ∃ st',
    filter_data 0 "Calories" "between" (Pair 200 400) Sample.loaded
      = (Return 3, st') ∧
    columns (frame_at st' 3) = columns Sample.menu ∧
    rows (frame_at st' 3) =
      List.filter (λ r, F64.le 200 (cell 0 r) && F64.le (cell 0 r) 400)
                  (rows Sample.menu) ∧
    (F64.gt 200 400 = true → rows (frame_at st' 3) = []).
Proof.
  split; [reflexivity|]. split; [reflexivity|].
  apply (between_is_inclusive 0 "Calories" 200 400 Sample.loaded 0);
    reflexivity.
Defined.

(** C8: on a column of the frame, the only one with its label, for every
    recognized operator and every operand, a missing cell does not satisfy the predicate; the call
    returns whenever the operand has the documented shape, and whenever it
    returns, no row of the result has a missing cell in the filtered
    column. *)
Theorem missing_value_is_excluded df nutrient operator value st i :
  operator ∈ recognized →
  position nutrient (columns (frame_at st df)) = Some i →
  label_count nutrient (columns (frame_at st df)) = 1 →
  (∀ v, F64.isna v = true → satisfies operator value v = false) ∧
  (well_typed operator value →
     ∃ out st', filter_data df nutrient operator value st = (Return out, st') ∧
       rows (frame_at st' out) =
         List.filter (λ r, satisfies operator value (cell i r))
                     (rows (frame_at st df))) ∧
  (∀ out st', filter_data df nutrient operator value st = (Return out, st') →
     ∀ row, row ∈ rows (frame_at st' out) → F64.isna (cell i row) = false).
Proof.
  intros Hop Hpos _. split; [intros v; apply satisfies_isna|].
  destruct (filter_data_recognized df nutrient operator value st i Hop Hpos)
    as [[Hty [e Hrun]]|(mask & Hrun & Hna & Hmask)].
  - split; [done|]. intros out st'. by rewrite Hrun.
  - split.
    + intros Hty. rewrite (Hmask Hty) in Hrun.
      eexists _, (alloc _ st).2; split; [by rewrite Hrun|].
      rewrite frame_at_alloc_new. simpl.
      by rewrite <- list_fmap_compose, select_fmap.
    + intros out st'. rewrite Hrun. intros [= <- <-] row.
      erewrite frame_at_snoc by reflexivity. simpl.
      intros (k & Hk & Hm)%elem_of_select.
      destruct (F64.isna (cell i row)) eqn:E; [|done].
      rewrite (Hna k (cell i row)) in Hm; [done| |done].
      by rewrite list_lookup_fmap, Hk.
Qed.

Lemma missing_value_is_excluded_witness :
  ("between" ∈ recognized) ∧
  position "Fat" (columns (frame_at Sample.loaded 0)) = Some 1 ∧
  label_count "Fat" (columns (frame_at Sample.loaded 0)) = 1 ∧
  (∀ v, F64.isna v = true → satisfies "between" (Pair 0 1000) v = false) ∧
  (well_typed "between" (Pair 0 1000) →
     ∃ out st',
       filter_data 0 "Fat" "between" (Pair 0 1000) Sample.loaded = (Return out, st') ∧
       rows (frame_at st' out) =
         List.filter (λ r, satisfies "between" (Pair 0 1000) (cell 1 r))
                     (rows (frame_at Sample.loaded 0))) ∧
  (∀ out st',
     filter_data 0 "Fat" "between" (Pair 0 1000) Sample.loaded = (Return out, st') →
     ∀ row, row ∈ rows (frame_at st' out) → F64.isna (cell 1 row) = false).
Proof.
  split; [compute_done|]. split; [reflexivity|]. split; [reflexivity|].
  apply (missing_value_is_excluded 0 "Fat" "between" (Pair 0 1000) Sample.loaded 1).
  - compute_done.
  - reflexivity.
  - reflexivity.
Defined.

(** C9: for every recognized operator and every operand, a call of
    [filter_data] on an allocated frame, with a nutrient that at most one
    column carries, leaves the engine and every frame
    of the store as they were; when it returns, the result is a new frame,
    distinct from the input, with the columns of the input and a
    subsequence of its rows.  It returns whenever the nutrient is a column
    and the operand has the documented shape. *)
Theorem filter_result_is_derived df nutrient operator value st :
  operator ∈ recognized →
  df < length (frames st) →
  (label_count nutrient (columns (frame_at st df)) ≤ 1)%nat →
  (nutrient ∈ columns (frame_at st df) → well_typed operator value →
     ∃ out st', filter_data df nutrient operator value st = (Return out, st')) ∧
  ∀ o st', filter_data df nutrient operator value st = (o, st') →
    self st' = self st ∧
    frames st `prefix_of` frames st' ∧
    ∀ out, o = Return out →
      out = length (frames st) ∧ out ≠ df ∧
      columns (frame_at st' out) = columns (frame_at st df) ∧
      rows (frame_at st' out) `sublist_of` rows (frame_at st df).
Proof.
  intros Hop Hdf _.
  destruct (position nutrient (columns (frame_at st df))) as [i|] eqn:Hpos.
  - destruct (filter_data_recognized df nutrient operator value st i Hop Hpos)
      as [[Hty [e Hrun]]|(mask & Hrun & _ & _)]; rewrite Hrun.
    + split; [done|]. intros o st' [= <- <-]. done.
    + split; [intros _ _; by eexists _, _|].
      intros o st' [= <- <-]. simpl. split; [done|].
      split; [by apply prefix_app_r|].
      intros out [= <-]. split; [done|]. split; [lia|].
      erewrite frame_at_snoc by reflexivity. simpl.
      split; [done|]. apply select_sublist.
  - apply position_None in Hpos. rewrite (filter_data_KeyError _ _ _ _ _ Hop Hpos).
    split; [done|]. intros o st' [= <- <-]. done.
Qed.

Lemma filter_result_is_derived_witness :
  (">" ∈ recognized) ∧
  0 < length (frames Sample.loaded) ∧
  (label_count "Calories" (columns (frame_at Sample.loaded 0)) ≤ 1)%nat ∧
  ("Calories" ∈ columns (frame_at Sample.loaded 0) → well_typed ">" (Scalar 300) →
     ∃ out st',
       filter_data 0 "Calories" ">" (Scalar 300) Sample.loaded = (Return out, st')) ∧
  ∀ o st', filter_data 0 "Calories" ">" (Scalar 300) Sample.loaded = (o, st') →
    self st' = self Sample.loaded ∧
    frames Sample.loaded `prefix_of` frames st' ∧
    ∀ out, o = Return out →
      out = length (frames Sample.loaded) ∧ out ≠ 0 ∧
      columns (frame_at st' out) = columns (frame_at Sample.loaded 0) ∧
      rows (frame_at st' out) `sublist_of` rows (frame_at Sample.loaded 0).
Proof.
  split; [compute_done|]. split; [simpl; lia|]. split; [compute_done|].
  apply (filter_result_is_derived 0 "Calories" ">" (Scalar 300) Sample.loaded).
  - compute_done.
  - simpl; lia.
  - compute_done.
Defined.

(** C10: for every state and every name that is not in [self.categories],
    [filter_dataset] raises the [ValueError] whose message quotes the
    name, and the state is as before the call. *)
Theorem filter_dataset_unknown_category catergory nutrient operator value st :
  catergory ∉ categories (self st) →
  filter_dataset catergory nutrient operator value st =
    (Raise (ValueError ("'" +:+ catergory +:+ "' not found in datasets")), st).
Proof.
  intros Hc. unfold filter_dataset, get_self. run_py. by rewrite decide_False.
Qed.

Lemma filter_dataset_unknown_category_witness :
  ("snacks" ∉ categories (self Sample.two_categories)) ∧
  filter_dataset "snacks" "Fat" ">" (Scalar 1) Sample.two_categories =
    (Raise (ValueError "'snacks' not found in datasets"), Sample.two_categories).
Proof.
  split; [compute_done|].
  apply (filter_dataset_unknown_category "snacks" "Fat" ">" (Scalar 1)
           Sample.two_categories).
  compute_done.
Defined.

(** ** Registration *)

Lemma dict_get_app {V : Type} (k : string) (d1 d2 : dict V) :
  dict_get k (d1 ++ d2) =
    match dict_get k d1 with Some v => Some v | None => dict_get k d2 end.
Proof.
  induction d1 as [|[k' v'] d1 IH]; simpl; [done|]. by case_decide.
Qed.

Lemma register_all_other calls st c :
  c ∉ calls.*1 →
  dict_get c (datasets (self (register_all calls st))) =
    dict_get c (datasets (self st)).
Proof.
  revert st. induction calls as [|[c0 df0] calls IH]; intros st Hc; [done|].
  simpl in *. apply not_elem_of_cons in Hc as [Hne Hc].
  rewrite IH by done. simpl. by rewrite dict_get_set_ne.
Qed.

(** C6, as stated, fails: after registering ["food"] twice the category
    list holds the name twice. *)
Lemma registering_twice_duplicates_the_name :
  categories (self (register_all [("food", 0); ("food", 0)] Sample.loaded))
    = ["food"; "food"] ∧
  ¬ NoDup (categories (self (register_all [("food", 0); ("food", 0)] Sample.loaded))).
Proof.
  split; [reflexivity|]. simpl. intros Hnd. apply NoDup_cons in Hnd as [Hn _].
  apply Hn, elem_of_cons. by left.
Qed.

(** C6, amended: for every sequence of [add_datasets] calls, a call for a
    category that is already registered overwrites its frame in
    [datasets], whose keys stay free of duplicates (a key is added only
    when the name is new), while the name is appended to [categories] on
    every call: the list holds the names of all the calls, in order. *)
Theorem register_all_appends_every_name calls st :
  dict_wf (datasets (self st)) →
  let p := self (register_all calls st) in
  categories p = categories (self st) ++ calls.*1 ∧
  dict_wf (datasets p) ∧
  (∀ c, c ∈ dict_keys (datasets p) ↔
          c ∈ dict_keys (datasets (self st)) ∨ c ∈ calls.*1) ∧
  (∀ c df, dict_get c (reverse calls) = Some df →
           dict_get c (datasets p) = Some df).
Proof.
  revert st. induction calls as [|[c0 df0] calls IH]; intros st Hwf;
    cbn [register_all]; cbv zeta.
  - rewrite app_nil_r. split_and!; [done..| |done].
    intros c. split; [by left|]. intros [?|?%elem_of_nil]; done.
  - destruct (IH (add_datasets c0 df0 st).2) as (Hcat & Hwf' & Hkeys & Hget).
    { simpl. by apply dict_wf_set. }
    split_and!.
    + rewrite Hcat. simpl. by rewrite <- app_assoc.
    + done.
    + intros c. rewrite Hkeys. simpl.
      rewrite elem_of_dict_keys_set, elem_of_cons. tauto.
    + intros c df. rewrite reverse_cons, dict_get_app.
      destruct (dict_get c (reverse calls)) as [v|] eqn:E.
      * intros [= ->]. by apply Hget.
      * simpl. case_decide as Hc; [|done]. intros [= ->]. subst c0.
        rewrite register_all_other.
        -- simpl. apply dict_get_set_eq.
        -- apply dict_get_None_keys in E. unfold dict_keys in E.
           by rewrite fmap_reverse, elem_of_reverse in E.
Qed.

Lemma register_all_appends_every_name_witness :
  dict_wf (datasets (self Sample.loaded)) ∧
  let p := self (register_all [("food", 0); ("drinks", 2); ("food", 1)] Sample.loaded) in
  categories p
    = categories (self Sample.loaded) ++ [("food", 0); ("drinks", 2); ("food", 1)].*1 ∧
  dict_wf (datasets p) ∧
  (∀ c, c ∈ dict_keys (datasets p) ↔
          c ∈ dict_keys (datasets (self Sample.loaded))
          ∨ c ∈ [("food", 0); ("drinks", 2); ("food", 1)].*1) ∧
  (∀ c df, dict_get c (reverse [("food", 0); ("drinks", 2); ("food", 1)]) = Some df →
           dict_get c (datasets p) = Some df).
Proof.
  split; [apply NoDup_nil_2|].
  apply (register_all_appends_every_name
           [("food", 0); ("drinks", 2); ("food", 1)] Sample.loaded).
  apply NoDup_nil_2.
Defined.

(** ** Loops that build a dictionary *)

Section Build.
Context {V : Type}.
Implicit Types (kvs : list (string * V)) (acc : dict V).

Lemma build_cons kv kvs acc :
  build (kv :: kvs) acc = build kvs (dict_set kv.1 kv.2 acc).
Proof. done. Qed.

Lemma elem_of_build_keys kvs acc k :
  k ∈ dict_keys (build kvs acc) ↔ k ∈ dict_keys acc ∨ k ∈ kvs.*1.
Proof.
  revert acc. induction kvs as [|[k0 v0] kvs IH]; intros acc.
  - simpl. split; [by left|]. intros [?|?%elem_of_nil]; done.
  - rewrite build_cons, IH, elem_of_dict_keys_set. simpl.
    rewrite elem_of_cons. tauto.
Qed.

(** From distinct new keys the loop appends them in order. *)
Lemma build_keys_fresh kvs acc :
  NoDup (dict_keys acc ++ kvs.*1) →
  dict_keys (build kvs acc) = dict_keys acc ++ kvs.*1.
Proof.
  revert acc. induction kvs as [|[k0 v0] kvs IH]; intros acc Hnd.
  - simpl. by rewrite app_nil_r.
  - rewrite build_cons. simpl in *.
    assert (Hk0 : k0 ∉ dict_keys acc).
    { apply NoDup_app in Hnd as (_ & Hdis & _). intros Hin.
      apply (Hdis _ Hin), elem_of_cons. by left. }
    assert (Hkeys : dict_keys (dict_set k0 v0 acc) = dict_keys acc ++ [k0]).
    { rewrite dict_keys_set. by rewrite decide_False. }
    rewrite IH; rewrite Hkeys, <- app_assoc; done.
Qed.

Lemma build_get_other kvs acc k :
  k ∉ kvs.*1 → dict_get k (build kvs acc) = dict_get k acc.
Proof.
  revert acc. induction kvs as [|[k0 v0] kvs IH]; intros acc Hk; [done|].
  simpl in Hk. apply not_elem_of_cons in Hk as [Hne Hk].
  rewrite build_cons, IH by done. simpl. by rewrite dict_get_set_ne.
Qed.

(** A key that the loop assigns holds the value of its assignments when
    they all agree. *)
Lemma build_get kvs acc k v :
  k ∈ kvs.*1 →
  (∀ v', (k, v') ∈ kvs → v' = v) →
  dict_get k (build kvs acc) = Some v.
Proof.
  revert acc. induction kvs as [|[k0 v0] kvs IH]; intros acc Hk Hv.
  - by apply elem_of_nil in Hk.
  - rewrite build_cons. simpl.
    destruct (decide (k ∈ kvs.*1)) as [Hin|Hnin].
    + apply IH; [done|]. intros v' Hv'. apply Hv, elem_of_cons. by right.
    + simpl in Hk. apply elem_of_cons in Hk as [->|?]; [|done].
      rewrite build_get_other by done.
      rewrite dict_get_set_eq. f_equal. apply Hv, elem_of_cons. by left.
Qed.
End Build.

(** A loop whose body, on the elements of the list, assigns one key and
    leaves the state alone. *)
Lemma for_in_build {A V : Type} (l : list A) (body : A → dict V → Py (dict V))
    (entry : A → string * V) (st : State) (acc : dict V) :
  (∀ x, x ∈ l → ∀ acc, body x acc st = (Return (dict_set (entry x).1 (entry x).2 acc), st)) →
  for_in l body acc st = (Return (build (entry <$> l) acc), st).
Proof.
  revert acc. induction l as [|x l IH]; intros acc Hbody; [done|].
  simpl. unfold mbind, Py_bind.
  rewrite Hbody by (apply elem_of_cons; by left).
  rewrite IH; [done|]. intros y Hy. apply Hbody, elem_of_cons. by right.
Qed.

Lemma dict_get_wf_elem_of {V : Type} (d : dict V) k v :
  dict_wf d → (k, v) ∈ d → dict_get k d = Some v.
Proof.
  unfold dict_wf, dict_keys. induction d as [|[k' v'] d IH]; simpl.
  - by intros _ ?%elem_of_nil.
  - intros [Hn Hnd]%NoDup_cons [[= -> ->]|Hin]%elem_of_cons.
    + by rewrite decide_True.
    + rewrite decide_False; [by apply IH|].
      intros ->. apply Hn. apply list_elem_of_fmap. by exists (k', v).
Qed.

Lemma dict_wf_unique {V : Type} (d : dict V) k v v' :
  dict_wf d → (k, v) ∈ d → (k, v') ∈ d → v = v'.
Proof.
  intros Hwf H1%(dict_get_wf_elem_of _ _ _ Hwf) H2%(dict_get_wf_elem_of _ _ _ Hwf).
  congruence.
Qed.

(** A loop over the items of a dictionary that assigns [f] of each value
    under the same key yields the same keys, each holding [f] of its
    value. *)
Lemma build_over_items {V W : Type} (d : dict V) (f : V → W) :
  dict_wf d →
  dict_keys (build ((λ kv, (kv.1, f kv.2)) <$> d) []) = dict_keys d ∧
  ∀ k v, dict_get k d = Some v →
         dict_get k (build ((λ kv, (kv.1, f kv.2)) <$> d) []) = Some (f v).
Proof.
  intros Hwf.
  assert (Hfst : ((λ kv : string * V, (kv.1, f kv.2)) <$> d).*1 = dict_keys d).
  { unfold dict_keys. rewrite <- list_fmap_compose. by apply list_fmap_ext. }
  split.
  - rewrite build_keys_fresh; rewrite Hfst; done.
  - intros k v Hget. apply build_get.
    + rewrite Hfst. by eapply dict_get_Some_keys.
    + intros w ([k' v'] & [= -> ->] & Hin)%list_elem_of_fmap. simpl. f_equal.
      apply dict_get_elem_of in Hget. by eapply dict_wf_unique.
Qed.

(** ** Running a sequence *)

Lemma bind_Return {A B : Type} (m : Py A) (k : A → Py B) st a st' :
  m st = (Return a, st') → (m ≫= k) st = k a st'.
Proof. unfold mbind, Py_bind. by intros ->. Qed.

(** ** [compare_datasets] *)

Lemma elem_of_position c cols : c ∈ cols → ∃ i, position c cols = Some i.
Proof.
  intros Hin. destruct (position c cols) as [i|] eqn:E; [by exists i|].
  by apply position_None in E.
Qed.

Lemma elem_of_dict_values {V : Type} (d : dict V) v :
  v ∈ dict_values d ↔ ∃ k, (k, v) ∈ d.
Proof.
  unfold dict_values. rewrite list_elem_of_fmap. split.
  - intros ([k v'] & -> & Hin). by exists k.
  - intros [k Hin]. by exists (k, v).
Qed.

Lemma elem_of_foldl_intersection (s : gset string) (sets : list (gset string)) n :
  n ∈ foldl (∩) s sets ↔ n ∈ s ∧ ∀ s', s' ∈ sets → n ∈ s'.
Proof.
  revert s. induction sets as [|s0 sets IH]; intros s; simpl.
  - split; [|by intros [? _]]. intros Hn. split; [done|]. by intros s' ?%elem_of_nil.
  - rewrite IH, elem_of_intersection. split.
    + intros [[Hs Hs0] Hrest]. split; [done|].
      intros s' [->|Hin]%elem_of_cons; [done|]. by apply Hrest.
    + intros [Hs Hall]. split; [split; [done|]|].
      * apply Hall, elem_of_cons. by left.
      * intros s' Hin. apply Hall, elem_of_cons. by right.
Qed.

(** The loop behind [[set(df.columns) for df in self.datasets.values()]]. *)
Lemma all_cols_run (vals : list ref) (acc : list (gset string)) st :
  for_in vals
    (λ r (acc : list (gset string)),
       df ← deref r; mret (acc ++ [list_to_set (columns df)])) acc st
  = (Return (acc ++ ((λ r, list_to_set (columns (frame_at st r))) <$> vals)), st).
Proof.
  revert acc. induction vals as [|r vals IH]; intros acc; simpl.
  - by rewrite app_nil_r.
  - run_py. unfold mbind, Py_bind in IH. rewrite IH. by rewrite <- app_assoc.
Qed.

Section Comparison.
Context `{Runtime}.

Lemma present_record_shape s : count_and_rounded (present_record s).
Proof.
  split; [done|]. split; [by eexists|].
  intros field Hin Hne. unfold nine_fields in Hin.
  repeat (apply elem_of_cons in Hin as [->|Hin]; [try done; by eexists|]).
  by apply elem_of_nil in Hin.
Qed.

Lemma absent_record_shape : all_missing absent_record.
Proof.
  split; [done|]. intros field Hin. unfold nine_fields in Hin.
  repeat (apply elem_of_cons in Hin as [->|Hin]; [done|]).
  by apply elem_of_nil in Hin.
Qed.

Lemma record_of_shape df nutrient :
  (nutrient ∈ columns df → count_and_rounded (record_of df nutrient)) ∧
  (nutrient ∉ columns df → all_missing (record_of df nutrient)).
Proof.
  unfold record_of. split.
  - intros [i Hi]%elem_of_position. rewrite (getitem_position _ _ _ Hi).
    apply present_record_shape.
  - intros Hn. rewrite (getitem_absent _ _ Hn). apply absent_record_shape.
Qed.

Lemma compare_category_run df nutrients st :
  compare_category df nutrients st =
    (Return (build ((λ n, (n, record_of df n)) <$> nutrients) []), st).
Proof.
  unfold compare_category. apply (for_in_build _ _ (λ n, (n, record_of df n))).
  intros n _ acc. unfold has_column, record_of. case_bool_decide as Hn.
  - destruct (elem_of_position _ _ Hn) as [i Hi].
    run_py. by rewrite (getitem_position _ _ _ Hi).
  - by rewrite (getitem_absent _ _ Hn).
Qed.

(** The entry of one category over the nutrients [N]. *)
Lemma category_entry df (N : list string) :
  let entry := build ((λ n, (n, record_of df n)) <$> N) [] in
  (∀ n, n ∈ dict_keys entry ↔ n ∈ N) ∧
  ∀ n, n ∈ N → dict_get n entry = Some (record_of df n).
Proof.
  assert (Hfst : ((λ n, (n, record_of df n)) <$> N).*1 = N).
  { rewrite <- list_fmap_compose. rewrite <- (list_fmap_id N) at 2.
    by apply list_fmap_ext. }
  split.
  - intros n. rewrite elem_of_build_keys, Hfst. split; [|by right].
    intros [?%elem_of_nil|?]; done.
  - intros n Hn. apply build_get; [by rewrite Hfst|].
    by intros v' (n' & [= -> ->] & _)%list_elem_of_fmap.
Qed.

(** The nutrients compared when the caller gives none. *)
Lemma inferred_nutrients st :
  dict_wf (datasets (self st)) →
  (2 ≤ dict_len (datasets (self st)))%nat →
  ∃ common,
    set_intersection
      ((λ r, list_to_set (columns (frame_at st r))) <$> dict_values (datasets (self st)))
      = Return common ∧
    ∀ n, n ∈ elements common ↔
         ∀ c r, dict_get c (datasets (self st)) = Some r →
                n ∈ columns (frame_at st r).
Proof.
  intros Hwf Hlen. set (d := datasets (self st)) in *.
  set (sets := (λ r, list_to_set (columns (frame_at st r))) <$> dict_values d).
  assert (Hsets : ∀ n, (∀ s', s' ∈ sets → n ∈ s') ↔
            ∀ c r, dict_get c d = Some r → n ∈ columns (frame_at st r)).
  { intros n. split.
    - intros Hall c r Hget%dict_get_elem_of.
      rewrite <- (elem_of_list_to_set (C := gset string)). apply Hall.
      apply list_elem_of_fmap. exists r. split; [done|].
      apply elem_of_dict_values. by exists c.
    - intros Hall s' (r & -> & [c Hin]%elem_of_dict_values)%list_elem_of_fmap.
      apply elem_of_list_to_set, (Hall c). by apply dict_get_wf_elem_of. }
  destruct sets as [|s0 sets'] eqn:E.
  { subst sets. destruct d; [simpl in Hlen; lia|done]. }
  simpl. eexists; split; [done|]. intros n.
  rewrite elem_of_elements, elem_of_foldl_intersection, <- Hsets. split.
  - intros [H0 Hrest] s' [->|Hin]%elem_of_cons; [done|]. by apply Hrest.
  - intros Hall. split; [|intros s' Hin]; apply Hall, elem_of_cons; auto.
Qed.

(** C3: for every state with at least two registered datasets, whose
    frames have distinct column labels, and every nutrients argument,
    [compare_datasets] returns a dictionary and leaves the state alone.  The nutrient set [N] is the list the caller gave, or
    else the names that are columns of every registered frame.  The keys
    of the result are the registered categories; the entry of a category
    has exactly the nutrients of [N] as keys; the record of a nutrient has
    exactly the nine fields, with an integer count and every other field
    rounded to two decimals when the frame has the column, and all nine
    missing when it has not. *)
Theorem comparison_is_complete nutrients st :
  dict_wf (datasets (self st)) →
  (2 ≤ dict_len (datasets (self st)))%nat →
  distinct_labels st →
  ∃ (N : list string) comparison,
    compare_datasets nutrients st = (Return (Some comparison), st) ∧
    match nutrients with
    | Some l => N = l
    | None => ∀ n, n ∈ N ↔ ∀ c r, dict_get c (datasets (self st)) = Some r →
                                 n ∈ columns (frame_at st r)
    end ∧
    dict_keys comparison = dict_keys (datasets (self st)) ∧
    ∀ c r, dict_get c (datasets (self st)) = Some r →
      ∃ entry, dict_get c comparison = Some entry ∧
        (∀ n, n ∈ dict_keys entry ↔ n ∈ N) ∧
        ∀ n, n ∈ N →
          ∃ record, dict_get n entry = Some record ∧
            (n ∈ columns (frame_at st r) → count_and_rounded record) ∧
            (n ∉ columns (frame_at st r) → all_missing record).
Proof.
  intros Hwf Hlen _.
  assert (Hmain : ∀ N,
    for_in (datasets (self st))
      (λ '(category, r) comparison,
         df ← deref r;
         entry ← compare_category df N;
         mret (dict_set category entry comparison)) [] st
    = (Return (build ((λ kv, (kv.1, build ((λ n, (n, record_of (frame_at st kv.2) n)) <$> N) []))
                        <$> datasets (self st)) []), st)).
  { intros N. apply (for_in_build _ _
      (λ kv, (kv.1, build ((λ n, (n, record_of (frame_at st kv.2) n)) <$> N) []))).
    intros [c r] _ acc. run_py. by rewrite compare_category_run. }
  assert (Hshape : ∀ N,
    let comparison := build ((λ kv, (kv.1, build ((λ n, (n, record_of (frame_at st kv.2) n)) <$> N) []))
                               <$> datasets (self st)) [] in
    dict_keys comparison = dict_keys (datasets (self st)) ∧
    ∀ c r, dict_get c (datasets (self st)) = Some r →
      ∃ entry, dict_get c comparison = Some entry ∧
        (∀ n, n ∈ dict_keys entry ↔ n ∈ N) ∧
        ∀ n, n ∈ N →
          ∃ record, dict_get n entry = Some record ∧
            (n ∈ columns (frame_at st r) → count_and_rounded record) ∧
            (n ∉ columns (frame_at st r) → all_missing record)).
  { intros N.
    destruct (build_over_items (datasets (self st))
                (λ r, build ((λ n, (n, record_of (frame_at st r) n)) <$> N) []) Hwf)
      as [Hkeys Hget].
    split; [done|]. intros c r Hc. eexists. split; [by apply Hget|].
    destruct (category_entry (frame_at st r) N) as [Hk Hr].
    split; [done|]. intros n Hn. eexists. split; [by apply Hr|].
    apply record_of_shape. }
  unfold compare_datasets.
  rewrite (bind_Return get_self _ st (self st) st eq_refl).
  rewrite decide_False by lia.
  destruct nutrients as [l|].
  - exists l. eexists.
    rewrite (bind_Return (mret l) _ st l st eq_refl).
    rewrite (bind_Return _ _ _ _ _ (Hmain l)).
    split; [done|]. split; [done|]. apply Hshape.
  - destruct (inferred_nutrients st Hwf Hlen) as (common & Hint & Hcommon).
    exists (elements common). eexists.
    erewrite (bind_Return (_ ≫= _) _ st (elements common) st); cycle 1.
    { rewrite (bind_Return _ _ _ _ _ (all_cols_run _ [] st)). simpl.
      erewrite (bind_Return (lift _)) by (unfold lift; by rewrite Hint). done. }
    rewrite (bind_Return _ _ _ _ _ (Hmain (elements common))).
    split; [done|]. split; [done|]. apply Hshape.
Qed.
End Comparison.

Ltac labels_distinct :=
  let c := fresh "c" in let r := fresh "r" in let Hget := fresh "Hget" in
  intros c r Hget; simpl in Hget;
  repeat case_decide; try done; injection Hget as <-; compute_done.

Lemma comparison_is_complete_witness :
  dict_wf (datasets (self Sample.two_categories)) ∧
  (2 ≤ dict_len (datasets (self Sample.two_categories)))%nat ∧
  distinct_labels Sample.two_categories ∧
  ∃ (N : list string) comparison,
    compare_datasets (H := Reference.runtime) None Sample.two_categories
      = (Return (Some comparison), Sample.two_categories) ∧
    (∀ n, n ∈ N ↔ ∀ c r, dict_get c (datasets (self Sample.two_categories)) = Some r →
                         n ∈ columns (frame_at Sample.two_categories r)) ∧
    dict_keys comparison = dict_keys (datasets (self Sample.two_categories)) ∧
    ∀ c r, dict_get c (datasets (self Sample.two_categories)) = Some r →
      ∃ entry, dict_get c comparison = Some entry ∧
        (∀ n, n ∈ dict_keys entry ↔ n ∈ N) ∧
        ∀ n, n ∈ N →
          ∃ record, dict_get n entry = Some record ∧
            (n ∈ columns (frame_at Sample.two_categories r) →
               count_and_rounded (H := Reference.runtime) record) ∧
            (n ∉ columns (frame_at Sample.two_categories r) → all_missing record).
Proof.
  assert (Hwf : dict_wf (datasets (self Sample.two_categories))).
  { unfold dict_wf, dict_keys. compute_done. }
  assert (Hlen : (2 ≤ dict_len (datasets (self Sample.two_categories)))%nat).
  { simpl. lia. }
  assert (Hlabels : distinct_labels Sample.two_categories) by labels_distinct.
  split; [exact Hwf|]. split; [exact Hlen|]. split; [exact Hlabels|].
  exact (comparison_is_complete (H := Reference.runtime) None
           Sample.two_categories Hwf Hlen Hlabels).
Defined.

(** A caller-supplied nutrient that one category lacks: the record of
    ["Protein"] for the drinks is all missing, the one for the food is
    computed. *)
Example compare_supplied_nutrient :
  (compare_datasets (H := Reference.runtime) (Some ["Protein"])
     Sample.two_categories).1
  = Return (Some
      [("food", [("Protein",
         [("count", PyInt 3); ("mean", PyFloat (PrimFloat.div 133 100)); ("median", PyFloat 1);
          ("std", PyFloat (PrimFloat.div 58 100)); ("min", PyFloat 1); ("max", PyFloat 2);
          ("25%", PyFloat 1); ("50%", PyFloat 1); ("75%", PyFloat 1.5)])]);
       ("drinks", [("Protein",
         [("count", PyFloat F64.nan); ("mean", PyFloat F64.nan);
          ("median", PyFloat F64.nan); ("std", PyFloat F64.nan);
          ("min", PyFloat F64.nan); ("max", PyFloat F64.nan);
          ("25%", PyFloat F64.nan); ("50%", PyFloat F64.nan);
          ("75%", PyFloat F64.nan)])])]).
Proof. vm_compute. reflexivity. Qed.

(** C2, as stated, fails: with one registered dataset [compare_datasets]
    raises nothing and returns [None]. *)
Lemma one_dataset_comparison_does_not_fail :
  dict_len (datasets (self Sample.one_category)) = 1 ∧
  (compare_datasets (H := Reference.runtime) None Sample.one_category).1
    = Return None ∧
  ¬ ∃ e, (compare_datasets (H := Reference.runtime) None Sample.one_category).1
           = Raise e.
Proof.
  split; [reflexivity|]. split; [reflexivity|]. intros [e He]. discriminate He.
Qed.

(** C2, amended: whenever [self.datasets] holds fewer than two entries,
    [compare_datasets], with any nutrients argument, raises nothing: it
    prints "Need at least 2 datasets to compare." and returns [None],
    neither a partial nor an empty dictionary; the store and the engine
    are unchanged. *)
Theorem too_few_datasets_returns_None `{Runtime} nutrients st :
  dict_len (datasets (self st)) < 2 →
  compare_datasets nutrients st =
    (Return None,
     {| frames := frames st; self := self st;
        stdout := stdout st ++ ["Need at least 2 datasets to compare."] |}).
Proof.
  intros Hlen. unfold compare_datasets.
  rewrite (bind_Return get_self _ st (self st) st eq_refl).
  by rewrite decide_True.
Qed.

Lemma too_few_datasets_returns_None_witness :
  dict_len (datasets (self Sample.food_twice)) < 2 ∧
  compare_datasets (H := Reference.runtime) (Some ["Calories"]) Sample.food_twice =
    (Return None,
     {| frames := frames Sample.food_twice; self := self Sample.food_twice;
        stdout := ["Need at least 2 datasets to compare."] |}).
Proof.
  split; [simpl; lia|].
  apply (too_few_datasets_returns_None (H := Reference.runtime)
           (Some ["Calories"]) Sample.food_twice).
  simpl; lia.
Defined.

(** ** [calculate_descriptive_stats] *)

Section DescriptiveStats.
Context `{Runtime}.

Lemma has_column_true df c : has_column df c = true ↔ c ∈ columns df.
Proof. unfold has_column. apply bool_decide_eq_true. Qed.

Lemma ratio_of_three df :
  "Fat" ∈ columns df → "Protein" ∈ columns df → "Carb" ∈ columns df →
  ∃ fat protein carb,
    getitem df "Fat" = Return fat ∧
    getitem df "Protein" = Return protein ∧
    getitem df "Carb" = Return carb ∧
    ratio_of df =
      [("fat_to_protein", PrimFloat.div (series_sum fat) (series_sum protein));
       ("protein_to_carb", PrimFloat.div (series_sum protein) (series_sum carb));
       ("carb_to_fat", PrimFloat.div (series_sum carb) (series_sum fat))].
Proof.
  intros [i Hi]%elem_of_position [j Hj]%elem_of_position [k Hk]%elem_of_position.
  unfold ratio_of.
  rewrite (getitem_position _ _ _ Hi), (getitem_position _ _ _ Hj),
    (getitem_position _ _ _ Hk).
  by eexists _, _, _.
Qed.

Lemma ratio_of_partial df :
  ¬ ("Fat" ∈ columns df ∧ "Protein" ∈ columns df ∧ "Carb" ∈ columns df) →
  ratio_of df = [].
Proof.
  intros Hn. unfold ratio_of.
  destruct (decide ("Fat" ∈ columns df)) as [Hf|Hf];
    [|by rewrite (getitem_absent _ _ Hf)].
  destruct (decide ("Protein" ∈ columns df)) as [Hp|Hp];
    [|rewrite (getitem_absent _ "Protein" Hp); by destruct (getitem df "Fat")].
  destruct (decide ("Carb" ∈ columns df)) as [Hc|Hc];
    [tauto|rewrite (getitem_absent _ "Carb" Hc)].
  by destruct (getitem df "Fat"), (getitem df "Protein").
Qed.

(** One round of the loop, on a frame that [describe] accepts. *)
Lemma stats_body_run (category : string) (r : ref) (stats : dict CategoryStats) st d :
  describe (frame_at st r) = Return d →
  (nutrient ← deref r;
   d ← lift (describe nutrient);
   ratio ←
     (if has_column nutrient "Fat" && has_column nutrient "Protein"
         && has_column nutrient "Carb"
      then
        fat ← lift (getitem nutrient "Fat");
        protein ← lift (getitem nutrient "Protein");
        carb ← lift (getitem nutrient "Carb");
        let fat_sum := series_sum fat in
        let protein_sum := series_sum protein in
        let carb_sum := series_sum carb in
        mret [("fat_to_protein", PrimFloat.div fat_sum protein_sum);
              ("protein_to_carb", PrimFloat.div protein_sum carb_sum);
              ("carb_to_fat", PrimFloat.div carb_sum fat_sum)]
      else mret []);
   mret (dict_set category
           {| stats_describe := d; stats_ratio := ratio |} stats)) st
  = (Return (dict_set category (stats_of (frame_at st r)) stats), st).
Proof.
  intros Hd. unfold stats_of. rewrite Hd.
  rewrite (bind_Return (deref r) _ st (frame_at st r) st eq_refl).
  erewrite (bind_Return (lift _)) by (unfold lift; by rewrite Hd).
  destruct (has_column (frame_at st r) "Fat" && has_column (frame_at st r) "Protein"
            && has_column (frame_at st r) "Carb") eqn:E.
  - apply andb_true_iff in E as [[Hf Hp]%andb_true_iff Hc].
    apply has_column_true in Hf, Hp, Hc.
    destruct (ratio_of_three _ Hf Hp Hc) as (fat & protein & carb & H1 & H2 & H3 & ->).
    run_py. by rewrite H1, H2, H3.
  - rewrite ratio_of_partial; [done|]. intros (Hf & Hp & Hc).
    apply has_column_true in Hf, Hp, Hc. by rewrite Hf, Hp, Hc in E.
Qed.

(** C4: when the registered frames have distinct column labels and
    [describe] accepts every one of them, [calculate_descriptive_stats]
    returns an entry for every registered category and leaves the state
    alone.  The ['ratio'] dictionary of a
    category holds the three ratios, each the quotient of the sums of two
    columns over all rows, when Fat, Protein and Carb are all columns of
    its frame; it is empty when any of the three is absent. *)
Theorem ratios_need_three_columns st :
  dict_wf (datasets (self st)) →
  distinct_labels st →
  (∀ c r, dict_get c (datasets (self st)) = Some r →
          ∃ d, describe (frame_at st r) = Return d) →
  ∃ stats,
    calculate_descriptive_stats st = (Return stats, st) ∧
    dict_keys stats = dict_keys (datasets (self st)) ∧
    ∀ c r, dict_get c (datasets (self st)) = Some r →
      ∃ entry, dict_get c stats = Some entry ∧
        (("Fat" ∈ columns (frame_at st r) ∧ "Protein" ∈ columns (frame_at st r)
          ∧ "Carb" ∈ columns (frame_at st r)) →
         dict_keys (stats_ratio entry) = ratio_names ∧
         ∃ fat protein carb,
           getitem (frame_at st r) "Fat" = Return fat ∧
           getitem (frame_at st r) "Protein" = Return protein ∧
           getitem (frame_at st r) "Carb" = Return carb ∧
           stats_ratio entry =
             [("fat_to_protein", PrimFloat.div (series_sum fat) (series_sum protein));
              ("protein_to_carb", PrimFloat.div (series_sum protein) (series_sum carb));
              ("carb_to_fat", PrimFloat.div (series_sum carb) (series_sum fat))]) ∧
        (¬ ("Fat" ∈ columns (frame_at st r) ∧ "Protein" ∈ columns (frame_at st r)
            ∧ "Carb" ∈ columns (frame_at st r)) →
         stats_ratio entry = []).
Proof.
  intros Hwf _ Hdescribe.
  destruct (build_over_items (datasets (self st)) (λ r, stats_of (frame_at st r)) Hwf)
    as [Hkeys Hget].
  eexists. split; [|split; [exact Hkeys|]].
  - unfold calculate_descriptive_stats.
    rewrite (bind_Return get_self _ st (self st) st eq_refl).
    apply (for_in_build _ _ (λ kv, (kv.1, stats_of (frame_at st kv.2)))).
    intros [c r] Hin acc.
    destruct (Hdescribe c r) as [d Hd]; [by apply dict_get_wf_elem_of|].
    by apply (stats_body_run c r acc st d).
  - intros c r Hc. eexists. split; [by apply Hget|]. simpl. split.
    + intros (Hf & Hp & Hcarb).
      destruct (ratio_of_three _ Hf Hp Hcarb)
        as (fat & protein & carb & H1 & H2 & H3 & Hr).
      split; [by rewrite Hr|]. by exists fat, protein, carb.
    + apply ratio_of_partial.
Qed.
End DescriptiveStats.

Lemma ratios_need_three_columns_witness :
  dict_wf (datasets (self Sample.snacks_and_food)) ∧
  distinct_labels Sample.snacks_and_food ∧
  (∀ c r, dict_get c (datasets (self Sample.snacks_and_food)) = Some r →
          ∃ d, Reference.describe (frame_at Sample.snacks_and_food r) = Return d) ∧
  ∃ stats,
    calculate_descriptive_stats (H := Reference.runtime) Sample.snacks_and_food
      = (Return stats, Sample.snacks_and_food) ∧
    dict_keys stats = dict_keys (datasets (self Sample.snacks_and_food)) ∧
    ∀ c r, dict_get c (datasets (self Sample.snacks_and_food)) = Some r →
      ∃ entry, dict_get c stats = Some entry ∧
        (("Fat" ∈ columns (frame_at Sample.snacks_and_food r)
          ∧ "Protein" ∈ columns (frame_at Sample.snacks_and_food r)
          ∧ "Carb" ∈ columns (frame_at Sample.snacks_and_food r)) →
         dict_keys (stats_ratio entry) = ratio_names ∧
         ∃ fat protein carb,
           getitem (frame_at Sample.snacks_and_food r) "Fat" = Return fat ∧
           getitem (frame_at Sample.snacks_and_food r) "Protein" = Return protein ∧
           getitem (frame_at Sample.snacks_and_food r) "Carb" = Return carb ∧
           stats_ratio entry =
             [("fat_to_protein",
               PrimFloat.div (Reference.sum fat) (Reference.sum protein));
              ("protein_to_carb",
               PrimFloat.div (Reference.sum protein) (Reference.sum carb));
              ("carb_to_fat",
               PrimFloat.div (Reference.sum carb) (Reference.sum fat))]) ∧
        (¬ ("Fat" ∈ columns (frame_at Sample.snacks_and_food r)
            ∧ "Protein" ∈ columns (frame_at Sample.snacks_and_food r)
            ∧ "Carb" ∈ columns (frame_at Sample.snacks_and_food r)) →
         stats_ratio entry = []).
Proof.
  assert (Hwf : dict_wf (datasets (self Sample.snacks_and_food))).
  { unfold dict_wf, dict_keys. compute_done. }
  assert (Hdescribe :
    ∀ c r, dict_get c (datasets (self Sample.snacks_and_food)) = Some r →
           ∃ d, Reference.describe (frame_at Sample.snacks_and_food r) = Return d).
  { intros c r. simpl. repeat case_decide; intros [= <-]; by eexists. }
  assert (Hlabels : distinct_labels Sample.snacks_and_food) by labels_distinct.
  split; [exact Hwf|]. split; [exact Hlabels|]. split; [exact Hdescribe|].
  exact (ratios_need_three_columns (H := Reference.runtime)
           Sample.snacks_and_food Hwf Hlabels Hdescribe).
Defined.

(** The ratios of the table with Fat = [2, 4], Protein = [1, 1] and
    Carb = [1, 3]: sums 6, 2 and 4. *)
Example ratios_of_snacks :
  stats_ratio <$>
    dict_get "snacks"
      (match (calculate_descriptive_stats (H := Reference.runtime)
                Sample.snacks_and_food).1 with
       | Return stats => stats
       | Raise _ => []
       end)
  = Some [("fat_to_protein", 3%float);
          ("protein_to_carb", 0.5%float);
          ("carb_to_fat", PrimFloat.div 4 6)].
Proof. vm_compute. reflexivity. Qed.

(** A table without a Protein column has no ratio at all. *)
Example ratios_of_teas :
  stats_ratio <$>
    dict_get "drinks"
      (match (calculate_descriptive_stats (H := Reference.runtime)
                Sample.two_categories).1 with
       | Return stats => stats
       | Raise _ => []
       end)
  = Some [].
Proof. vm_compute. reflexivity. Qed.

(** ** More of the binary64 order *)

Section SpecFloatOrder.
Implicit Types a b : spec_float.

Lemma SFcompare_antisym a b :
  SFcompare b a = CompOpp <$> SFcompare a b.
Proof.
  destruct a as [sa|sa| |sa ma ea], b as [sb|sb| |sb mb eb];
    simpl; try done;
    repeat match goal with s : bool |- _ => destruct s end; simpl; try done.
  all: change (Pos.compare_cont Eq ?x ?y) with (Pos.compare x y).
  all: rewrite (Z.compare_antisym ea eb), (Pos.compare_antisym ma mb).
  all: by destruct (ea ?= eb)%Z, (ma ?= mb)%positive.
Qed.

Lemma SFcompare_is_Some a b :
  a ≠ S754_nan → b ≠ S754_nan → ∃ c, SFcompare a b = Some c.
Proof.
  destruct a as [sa|sa| |sa ma ea], b as [sb|sb| |sb mb eb];
    intros Ha Hb; simpl; try done; by eexists.
Qed.
End SpecFloatOrder.

Section F64Order.
Implicit Types x v : float.

Lemma notna_spec x : F64.isna x = false → Prim2SF x ≠ S754_nan.
Proof.
  unfold F64.isna, PrimFloat.is_nan. rewrite FloatAxioms.eqb_spec.
  intros Hx Hn. by rewrite Hn in Hx.
Qed.

(** Two numbers compare in exactly one way. *)
Lemma trichotomy v x :
  F64.isna v = false → F64.isna x = false →
  (F64.gt v x = true ∧ F64.lt v x = false ∧ F64.eq v x = false) ∨
  (F64.gt v x = false ∧ F64.lt v x = true ∧ F64.eq v x = false) ∨
  (F64.gt v x = false ∧ F64.lt v x = false ∧ F64.eq v x = true).
Proof.
  intros Hv%notna_spec Hx%notna_spec. unfold F64.gt, F64.lt, F64.eq.
  rewrite !FloatAxioms.ltb_spec, FloatAxioms.eqb_spec. unfold SFltb, SFeqb.
  rewrite (SFcompare_antisym (Prim2SF v) (Prim2SF x)).
  destruct (SFcompare_is_Some _ _ Hv Hx) as [[] ->]; simpl; auto.
Qed.

(** [x <= v <= x] is [v == x]. *)
Lemma le_le_eq x v : F64.le x v && F64.le v x = F64.eq v x.
Proof.
  unfold F64.le, F64.eq. rewrite !FloatAxioms.leb_spec, FloatAxioms.eqb_spec.
  unfold SFleb, SFeqb. rewrite (SFcompare_antisym (Prim2SF v) (Prim2SF x)).
  by destruct (SFcompare (Prim2SF v) (Prim2SF x)) as [[]|].
Qed.
End F64Order.

(** ** Filters compose *)

Ltac ground := simpl; first [reflexivity | compute_done].

Lemma filter_data_well_typed df nutrient operator value st i :
  operator ∈ recognized →
  well_typed operator value →
  position nutrient (columns (frame_at st df)) = Some i →
  filter_data df nutrient operator value st
    = alloc (filtered (frame_at st df) i operator value) st.
Proof.
  intros Hop Hty Hpos.
  destruct (filter_data_recognized df nutrient operator value st i Hop Hpos)
    as [[Hn _]|(mask & Hrun & _ & Hmask)]; [done|].
  rewrite Hrun, (Hmask Hty). unfold getitem_mask, filtered.
  by rewrite <- list_fmap_compose, select_fmap.
Qed.

Lemma filter_filter_andb {A : Type} (p q : A → bool) (l : list A) :
  List.filter q (List.filter p l) = List.filter (λ x, p x && q x) l.
Proof.
  induction l as [|x l IH]; simpl; [done|].
  destruct (p x); simpl; [|done]. destruct (q x); by rewrite IH.
Qed.

Lemma filter_pointwise {A : Type} (p q : A → bool) (l : list A) :
  (∀ x, p x = q x) → List.filter p l = List.filter q l.
Proof.
  intros Hpq. induction l as [|x l IH]; simpl; [done|]. by rewrite Hpq, IH.
Qed.

(** X1. On a column that is the only one with its label, filtering the
    result of a filter again, with the same criterion, allocates one more frame with the same columns and the same rows. *)
Theorem filter_twice_is_filter_once df nutrient operator value st i :
  operator ∈ recognized →
  well_typed operator value →
  position nutrient (columns (frame_at st df)) = Some i →
  label_count nutrient (columns (frame_at st df)) = 1 →
  ∃ st1 st2,
    filter_data df nutrient operator value st
      = (Return (length (frames st)), st1) ∧
    filter_data (length (frames st)) nutrient operator value st1
      = (Return (S (length (frames st))), st2) ∧
    frame_at st2 (S (length (frames st))) = frame_at st1 (length (frames st)).
Proof.
  intros Hop Hty Hpos _.
  set (once := filtered (frame_at st df) i operator value).
  exists (alloc once st).2.
  assert (Hat : frame_at (alloc once st).2 (length (frames st)) = once)
    by apply frame_at_alloc_new.
  assert (Hlen : length (frames (alloc once st).2) = S (length (frames st))).
  { simpl. rewrite length_app. simpl. lia. }
  exists (alloc (filtered once i operator value) (alloc once st).2).2.
  split; [by rewrite (filter_data_well_typed _ _ _ _ _ i)|]. split.
  - rewrite (filter_data_well_typed _ _ _ _ _ i); rewrite ?Hat; try done.
    unfold alloc at 1. by rewrite Hlen.
  - rewrite <- Hlen, frame_at_alloc_new, Hat. unfold once, filtered. simpl. f_equal.
    rewrite filter_filter_andb. apply filter_pointwise. intros r. apply andb_diag.
Qed.

Lemma filter_twice_is_filter_once_witness :
  ("<" ∈ recognized) ∧
  well_typed "<" (Scalar 400) ∧
  position "Calories" (columns (frame_at Sample.loaded 0)) = Some 0 ∧
  label_count "Calories" (columns (frame_at Sample.loaded 0)) = 1 ∧
  ∃ st1 st2,
    filter_data 0 "Calories" "<" (Scalar 400) Sample.loaded = (Return 3, st1) ∧
    filter_data 3 "Calories" "<" (Scalar 400) st1 = (Return 4, st2) ∧
    frame_at st2 4 = frame_at st1 3.
Proof.
  split; [ground|]. split; [ground|]. split; [ground|]. split; [ground|].
  apply (filter_twice_is_filter_once 0 "Calories" "<" (Scalar 400) Sample.loaded 0).
  - ground.
  - ground.
  - ground.
  - ground.
Defined.

(** X2. On columns that are each the only one with their label, two
    filters in a row keep the rows that satisfy both criteria, and
    the order in which they are applied does not change the frame
    obtained. *)
Theorem chained_filters_conjoin df n1 op1 v1 n2 op2 v2 st i1 i2 :
  op1 ∈ recognized → well_typed op1 v1 →
  op2 ∈ recognized → well_typed op2 v2 →
  position n1 (columns (frame_at st df)) = Some i1 →
  position n2 (columns (frame_at st df)) = Some i2 →
  label_count n1 (columns (frame_at st df)) = 1 →
  label_count n2 (columns (frame_at st df)) = 1 →
  ∃ st1 st12 st2 st21,
    filter_data df n1 op1 v1 st = (Return (length (frames st)), st1) ∧
    filter_data (length (frames st)) n2 op2 v2 st1
      = (Return (S (length (frames st))), st12) ∧
    filter_data df n2 op2 v2 st = (Return (length (frames st)), st2) ∧
    filter_data (length (frames st)) n1 op1 v1 st2
      = (Return (S (length (frames st))), st21) ∧
    columns (frame_at st12 (S (length (frames st)))) = columns (frame_at st df) ∧
    rows (frame_at st12 (S (length (frames st)))) =
      List.filter (λ r, satisfies op1 v1 (cell i1 r) && satisfies op2 v2 (cell i2 r))
                  (rows (frame_at st df)) ∧
    frame_at st21 (S (length (frames st))) = frame_at st12 (S (length (frames st))).
Proof.
  intros Hop1 Hty1 Hop2 Hty2 Hpos1 Hpos2 _ _.
  set (d := frame_at st df).
  set (a := filtered d i1 op1 v1). set (b := filtered d i2 op2 v2).
  assert (Hlen : ∀ x, length (frames (alloc x st).2) = S (length (frames st))).
  { intros x. simpl. rewrite length_app. simpl. lia. }
  exists (alloc a st).2, (alloc (filtered a i2 op2 v2) (alloc a st).2).2,
         (alloc b st).2, (alloc (filtered b i1 op1 v1) (alloc b st).2).2.
  split; [by rewrite (filter_data_well_typed _ _ _ _ _ i1)|]. split.
  { rewrite (filter_data_well_typed _ _ _ _ _ i2);
      rewrite ?frame_at_alloc_new; try done.
    unfold alloc at 1. by rewrite Hlen. }
  split; [by rewrite (filter_data_well_typed _ _ _ _ _ i2)|]. split.
  { rewrite (filter_data_well_typed _ _ _ _ _ i1);
      rewrite ?frame_at_alloc_new; try done.
    unfold alloc at 1. by rewrite Hlen. }
  assert (Hnew : ∀ x y, frame_at (alloc y (alloc x st).2).2 (S (length (frames st))) = y).
  { intros x y. rewrite <- (Hlen x). apply frame_at_alloc_new. }
  rewrite !Hnew. unfold a, b, filtered. simpl.
  rewrite !filter_filter_andb. split; [done|]. split; [done|]. f_equal.
  apply filter_pointwise. intros r. apply andb_comm.
Qed.

Lemma chained_filters_conjoin_witness :
  (">" ∈ recognized) ∧ well_typed ">" (Scalar 100) ∧
  ("between" ∈ recognized) ∧ well_typed "between" (Pair 1 3) ∧
  position "Calories" (columns (frame_at Sample.loaded 0)) = Some 0 ∧
  position "Carb" (columns (frame_at Sample.loaded 0)) = Some 3 ∧
  label_count "Calories" (columns (frame_at Sample.loaded 0)) = 1 ∧
  label_count "Carb" (columns (frame_at Sample.loaded 0)) = 1 ∧
  ∃ st1 st12 st2 st21,
    filter_data 0 "Calories" ">" (Scalar 100) Sample.loaded = (Return 3, st1) ∧
    filter_data 3 "Carb" "between" (Pair 1 3) st1 = (Return 4, st12) ∧
    filter_data 0 "Carb" "between" (Pair 1 3) Sample.loaded = (Return 3, st2) ∧
    filter_data 3 "Calories" ">" (Scalar 100) st2 = (Return 4, st21) ∧
    columns (frame_at st12 4) = columns (frame_at Sample.loaded 0) ∧
    rows (frame_at st12 4) =
      List.filter (λ r, satisfies ">" (Scalar 100) (cell 0 r)
                        && satisfies "between" (Pair 1 3) (cell 3 r))
                  (rows (frame_at Sample.loaded 0)) ∧
    frame_at st21 4 = frame_at st12 4.
Proof.
  split; [ground|]. split; [ground|].
  split; [ground|]. split; [ground|].
  split; [ground|]. split; [ground|]. split; [ground|]. split; [ground|].
  apply (chained_filters_conjoin 0 "Calories" ">" (Scalar 100)
           "Carb" "between" (Pair 1 3) Sample.loaded 0 3).
  - ground.
  - ground.
  - ground.
  - ground.
  - ground.
  - ground.
  - ground.
  - ground.
Defined.

Lemma comparisons_count (l : list Row) i x :
  F64.isna x = false →
  length (List.filter (λ r, satisfies ">" (Scalar x) (cell i r)) l)
  + length (List.filter (λ r, satisfies "<" (Scalar x) (cell i r)) l)
  + length (List.filter (λ r, satisfies "==" (Scalar x) (cell i r)) l)
  = series_count (cell i <$> l).
Proof.
  intros Hx. unfold series_count.
  change (λ r, satisfies ">" (Scalar x) (cell i r)) with (λ r, F64.gt (cell i r) x).
  change (λ r, satisfies "<" (Scalar x) (cell i r)) with (λ r, F64.lt (cell i r) x).
  change (λ r, satisfies "==" (Scalar x) (cell i r)) with (λ r, F64.eq (cell i r) x).
  induction l as [|r l IH]; [done|]. csimpl. unfold F64.notna at 1.
  destruct (F64.isna (cell i r)) eqn:Hv.
  - rewrite (gt_isna _ x Hv), (lt_isna _ x Hv), (eq_isna _ x Hv). simpl. exact IH.
  - destruct (trichotomy _ _ Hv Hx)
      as [(-> & -> & ->)|[(-> & -> & ->)|(-> & -> & ->)]]; simpl; lia.
Qed.

(** X3. For a number [x] and a column that is the only one with its label,
    the rows kept by [> x], by [< x] and by [== x] are together as many as
    the cells of the column that are not missing:
    every such row is kept by exactly one of the three. *)
Theorem comparisons_partition_the_numbers df nutrient x st i :
  position nutrient (columns (frame_at st df)) = Some i →
  label_count nutrient (columns (frame_at st df)) = 1 →
  F64.isna x = false →
  ∃ st_gt st_lt st_eq,
    filter_data df nutrient ">" (Scalar x) st = (Return (length (frames st)), st_gt) ∧
    filter_data df nutrient "<" (Scalar x) st = (Return (length (frames st)), st_lt) ∧
    filter_data df nutrient "==" (Scalar x) st = (Return (length (frames st)), st_eq) ∧
    length (rows (frame_at st_gt (length (frames st))))
    + length (rows (frame_at st_lt (length (frames st))))
    + length (rows (frame_at st_eq (length (frames st))))
    = series_count (cell i <$> rows (frame_at st df)).
Proof.
  intros Hpos _ Hx.
  exists (alloc (filtered (frame_at st df) i ">" (Scalar x)) st).2,
         (alloc (filtered (frame_at st df) i "<" (Scalar x)) st).2,
         (alloc (filtered (frame_at st df) i "==" (Scalar x)) st).2.
  split; [rewrite (filter_data_well_typed _ _ _ _ _ i); try done; ground|].
  split; [rewrite (filter_data_well_typed _ _ _ _ _ i); try done; ground|].
  split; [rewrite (filter_data_well_typed _ _ _ _ _ i); try done; ground|].
  rewrite !frame_at_alloc_new. by apply comparisons_count.
Qed.

Lemma comparisons_partition_the_numbers_witness :
  position "Fat" (columns (frame_at Sample.loaded 0)) = Some 1 ∧
  label_count "Fat" (columns (frame_at Sample.loaded 0)) = 1 ∧
  F64.isna 3 = false ∧
  ∃ st_gt st_lt st_eq,
    filter_data 0 "Fat" ">" (Scalar 3) Sample.loaded = (Return 3, st_gt) ∧
    filter_data 0 "Fat" "<" (Scalar 3) Sample.loaded = (Return 3, st_lt) ∧
    filter_data 0 "Fat" "==" (Scalar 3) Sample.loaded = (Return 3, st_eq) ∧
    length (rows (frame_at st_gt 3)) + length (rows (frame_at st_lt 3))
    + length (rows (frame_at st_eq 3))
    = series_count (cell 1 <$> rows (frame_at Sample.loaded 0)).
Proof.
  split; [ground|]. split; [ground|]. split; [ground|].
  apply (comparisons_partition_the_numbers 0 "Fat" 3 Sample.loaded 1).
  - ground.
  - ground.
  - ground.
Defined.

(** X4. ["between"] with the pair [(x, x)] is ["=="] with [x]: the two calls
    have the same outcome, the same new frame included, on every frame
    and every nutrient that at most one column carries. *)
Theorem between_equal_bounds_is_equality df nutrient x st :
  (label_count nutrient (columns (frame_at st df)) ≤ 1)%nat →
  filter_data df nutrient "between" (Pair x x) st
    = filter_data df nutrient "==" (Scalar x) st.
Proof.
  intros _.
  destruct (position nutrient (columns (frame_at st df))) as [i|] eqn:Hpos.
  - rewrite !(filter_data_well_typed _ _ _ _ _ i) by (try done; ground).
    unfold filtered. do 2 f_equal. apply filter_pointwise. intros r. simpl.
    apply le_le_eq.
  - apply position_None in Hpos.
    rewrite !filter_data_KeyError by (try done; ground). done.
Qed.

Lemma between_equal_bounds_is_equality_witness :
  (label_count "Calories" (columns (frame_at Sample.loaded 0)) ≤ 1)%nat ∧
  filter_data 0 "Calories" "between" (Pair 300 300) Sample.loaded
    = filter_data 0 "Calories" "==" (Scalar 300) Sample.loaded.
Proof.
  split; [ground|].
  apply (between_equal_bounds_is_equality 0 "Calories" 300 Sample.loaded).
  ground.
Defined.

(** ** [filter_datasets] *)

Lemma for_in_app {A S : Type} (l1 l2 : list A) (body : A → S → Py S) acc st :
  for_in (l1 ++ l2) body acc st =
    match for_in l1 body acc st with
    | (Return acc', st') => for_in l2 body acc' st'
    | (Raise e, st') => (Raise e, st')
    end.
Proof.
  revert acc st. induction l1 as [|x l1 IH]; intros acc st; [done|].
  simpl. unfold mbind, Py_bind. destruct (body x acc st) as [[acc'|e] st']; [|done].
  apply IH.
Qed.

Lemma frame_at_prefix st st' r :
  frames st `prefix_of` frames st' → r < length (frames st) →
  frame_at st' r = frame_at st r.
Proof.
  intros [fs Hfs] Hr. unfold frame_at. by rewrite Hfs, lookup_app_l.
Qed.

(** The loop of [filter_datasets] under a recognized operator with a
    well-typed operand, over categories whose frames have the column. *)
Lemma filter_loop (p : DataProcessor) nutrient operator value (cats : list string) :
  operator ∈ recognized →
  well_typed operator value →
  ∀ (acc : dict ref) st,
    (∀ c, c ∈ cats →
       ∃ df i, dict_get c (datasets p) = Some df ∧ df < length (frames st) ∧
               position nutrient (columns (frame_at st df)) = Some i) →
    ∃ out st',
      for_in cats
        (λ catergory filtered_datasets,
           df ← datasets_getitem p catergory;
           r ← filter_data df nutrient operator value;
           mret (dict_set catergory r filtered_datasets)) acc st
        = (Return out, st') ∧
      self st' = self st ∧ stdout st' = stdout st ∧
      frames st `prefix_of` frames st' ∧
      (∀ c, c ∈ dict_keys out ↔ c ∈ dict_keys acc ∨ c ∈ cats) ∧
      ∀ c r, dict_get c out = Some r →
        ((c ∉ cats) ∧ dict_get c acc = Some r) ∨
        ((c ∈ cats) ∧ (length (frames st) ≤ r)%nat ∧
         ∃ df i, dict_get c (datasets p) = Some df ∧ df < length (frames st) ∧
                 position nutrient (columns (frame_at st df)) = Some i ∧
                 frame_at st' r = filtered (frame_at st df) i operator value).
Proof.
  intros Hop Hty. induction cats as [|c0 cats IH]; intros acc st Hcats.
  - exists acc, st. split; [done|]. split; [done|]. split; [done|].
    split; [done|]. split.
    + intros c. split; [by left|]. intros [?|?%elem_of_nil]; done.
    + intros c r Hget. left. split; [apply not_elem_of_nil|done].
  - destruct (Hcats c0) as (df0 & i0 & Hget0 & Hdf0 & Hpos0);
      [apply elem_of_cons; by left|].
    set (new := filtered (frame_at st df0) i0 operator value).
    set (st1 := (alloc new st).2).
    assert (Hpre1 : frames st `prefix_of` frames st1) by apply prefix_app_r, reflexivity.
    destruct (IH (dict_set c0 (length (frames st)) acc) st1)
      as (out & st' & Hrun & Hself & Hout & Hpre & Hkeys & Hvals).
    { intros c Hc. destruct (Hcats c) as (df & i & Hget & Hdf & Hpos);
        [apply elem_of_cons; by right|].
      exists df, i. split; [done|]. split.
      - subst st1. simpl. rewrite length_app. lia.
      - by rewrite (frame_at_prefix st st1). }
    exists out, st'. split.
    { simpl. unfold datasets_getitem. rewrite Hget0.
      erewrite (bind_Return (_ ≫= _)); [exact Hrun|].
      rewrite (bind_Return (mret df0) _ st df0 st eq_refl).
      erewrite bind_Return;
        [|by apply (filter_data_well_typed _ _ _ _ _ i0)]. done. }
    split; [done|]. split; [done|]. split; [by etrans|]. split.
    { intros c. rewrite Hkeys, elem_of_dict_keys_set, elem_of_cons. tauto. }
    intros c r Hget.
    destruct (Hvals c r Hget) as [[Hnin Hacc]|(Hc & Hr & df & i & Hg & Hdf & Hpos & Hat)].
    + destruct (decide (c = c0)) as [->|Hne].
      * rewrite dict_get_set_eq in Hacc. injection Hacc as <-.
        right. split; [apply elem_of_cons; by left|]. split; [done|].
        exists df0, i0. split_and!; try done.
        rewrite (frame_at_prefix st1 st');
          [apply frame_at_alloc_new|done|].
        subst st1. simpl. rewrite length_app. simpl. lia.
      * rewrite dict_get_set_ne in Hacc by done. left. split; [|done].
        intros [?|?]%elem_of_cons; done.
    + right. split; [apply elem_of_cons; by right|].
      destruct (Hcats c) as (df' & i' & Hg' & Hlt & Hpos');
        [apply elem_of_cons; by right|].
      assert (df = df') as -> by congruence.
      split; [subst st1; simpl in Hr; rewrite length_app in Hr; lia|].
      exists df', i. split_and!; try done.
      * by rewrite <- (frame_at_prefix st st1).
      * by rewrite <- (frame_at_prefix st st1 df').
Qed.

(** X5. [filter_datasets] with a recognized operator and a well-typed operand,
    over requested categories (all of [self.categories] by default) that
    are registered with a frame that has the column, under a label no
    other column of that frame carries: the result has the
    requested categories as keys, each bound to a frame allocated by this
    call that holds the columns of the category's frame and exactly its
    rows that satisfy the criterion; the engine and the frames that
    existed are unchanged and nothing is printed. *)
Theorem filter_datasets_filters_every_category nutrient operator value cats st :
  let requested := match cats with None => categories (self st) | Some l => l end in
  operator ∈ recognized →
  well_typed operator value →
  (∀ c, c ∈ requested →
     ∃ df i, dict_get c (datasets (self st)) = Some df ∧ df < length (frames st) ∧
             position nutrient (columns (frame_at st df)) = Some i ∧
             label_count nutrient (columns (frame_at st df)) = 1) →
  ∃ out st',
    filter_datasets nutrient operator value cats st = (Return out, st') ∧
    self st' = self st ∧ stdout st' = stdout st ∧
    frames st `prefix_of` frames st' ∧
    (∀ c, c ∈ dict_keys out ↔ c ∈ requested) ∧
    ∀ c r, dict_get c out = Some r →
      (length (frames st) ≤ r)%nat ∧
      ∃ df i, dict_get c (datasets (self st)) = Some df ∧
              position nutrient (columns (frame_at st df)) = Some i ∧
              frame_at st' r = filtered (frame_at st df) i operator value.
Proof.
  intros requested Hop Hty Hreq'.
  assert (Hreq : ∀ c, c ∈ requested →
     ∃ df i, dict_get c (datasets (self st)) = Some df ∧ df < length (frames st) ∧
             position nutrient (columns (frame_at st df)) = Some i).
  { intros c Hc. destruct (Hreq' c Hc) as (df & i & ? & ? & ? & _). by exists df, i. }
  destruct (filter_loop (self st) nutrient operator value requested Hop Hty [] st Hreq)
    as (out & st' & Hrun & Hself & Hout & Hpre & Hkeys & Hvals).
  exists out, st'. split.
  { unfold filter_datasets.
    rewrite (bind_Return get_self _ st (self st) st eq_refl). exact Hrun. }
  split; [done|]. split; [done|]. split; [done|]. split.
  - intros c. rewrite Hkeys. split; [|by right]. intros [?%elem_of_nil|?]; done.
  - intros c r Hget.
    destruct (Hvals c r Hget) as [[_ ?]|(_ & Hr & df & i & Hg & _ & Hpos & Hat)];
      [done|].
    split; [done|]. by exists df, i.
Qed.

Lemma filter_datasets_filters_every_category_witness :
  let requested := categories (self Sample.two_categories) in
  (">" ∈ recognized) ∧
  well_typed ">" (Scalar 100) ∧
  (∀ c, c ∈ requested →
     ∃ df i, dict_get c (datasets (self Sample.two_categories)) = Some df ∧
             df < length (frames Sample.two_categories) ∧
             position "Calories" (columns (frame_at Sample.two_categories df)) = Some i ∧
             label_count "Calories" (columns (frame_at Sample.two_categories df)) = 1) ∧
  ∃ out st',
    filter_datasets "Calories" ">" (Scalar 100) None Sample.two_categories
      = (Return out, st') ∧
    self st' = self Sample.two_categories ∧
    stdout st' = stdout Sample.two_categories ∧
    frames Sample.two_categories `prefix_of` frames st' ∧
    (∀ c, c ∈ dict_keys out ↔ c ∈ requested) ∧
    ∀ c r, dict_get c out = Some r →
      (length (frames Sample.two_categories) ≤ r)%nat ∧
      ∃ df i, dict_get c (datasets (self Sample.two_categories)) = Some df ∧
              position "Calories" (columns (frame_at Sample.two_categories df)) = Some i ∧
              frame_at st' r
                = filtered (frame_at Sample.two_categories df) i ">" (Scalar 100).
Proof.
  assert (Hreq : ∀ c, c ∈ categories (self Sample.two_categories) →
     ∃ df i, dict_get c (datasets (self Sample.two_categories)) = Some df ∧
             df < length (frames Sample.two_categories) ∧
             position "Calories" (columns (frame_at Sample.two_categories df)) = Some i ∧
             label_count "Calories" (columns (frame_at Sample.two_categories df)) = 1).
  { intros c Hc. simpl in Hc.
    repeat (apply elem_of_cons in Hc as [->|Hc]);
      [exists 0, 0|exists 2, 0|by apply elem_of_nil in Hc];
      (split; [reflexivity|]; split; [simpl; lia|]; split; reflexivity). }
  split; [ground|]. split; [ground|]. split; [exact Hreq|].
  apply (filter_datasets_filters_every_category "Calories" ">" (Scalar 100) None
           Sample.two_categories); [ground|ground|exact Hreq].
Defined.

(** X6. A requested category without a dataset stops [filter_datasets] with
    the [KeyError] of [self.datasets[catergory]] that names it (not the
    [ValueError] of [filter_dataset]); the categories before it have been
    filtered, and their frames stay allocated. *)
Theorem filter_datasets_unregistered_category
    nutrient operator value before c after st out st' :
  filter_datasets nutrient operator value (Some before) st = (Return out, st') →
  c ∉ dict_keys (datasets (self st)) →
  filter_datasets nutrient operator value (Some (before ++ c :: after)) st
    = (Raise (KeyError c), st').
Proof.
  unfold filter_datasets.
  rewrite !(bind_Return get_self _ st (self st) st eq_refl).
  intros Hrun Hc%dict_get_None_keys. rewrite for_in_app, Hrun. simpl.
  unfold datasets_getitem. rewrite Hc. done.
Qed.

Lemma filter_datasets_unregistered_category_witness :
  filter_datasets "Calories" ">" (Scalar 100) (Some ["food"]) Sample.two_categories
    = (Return [("food", 3)],
       (alloc (filtered Sample.menu 0 ">" (Scalar 100)) Sample.two_categories).2) ∧
  ("snacks" ∉ dict_keys (datasets (self Sample.two_categories))) ∧
  filter_datasets "Calories" ">" (Scalar 100) (Some (["food"] ++ "snacks" :: ["drinks"]))
    Sample.two_categories
    = (Raise (KeyError "snacks"),
       (alloc (filtered Sample.menu 0 ">" (Scalar 100)) Sample.two_categories).2).
Proof.
  split; [reflexivity|]. split; [ground|].
  apply (filter_datasets_unregistered_category "Calories" ">" (Scalar 100)
           ["food"] "snacks" ["drinks"] Sample.two_categories [("food", 3)]).
  - reflexivity.
  - ground.
Defined.

Lemma fst_fmap_pair {A : Type} (f : string → A) (l : list string) :
  ((λ c, (c, f c)) <$> l).*1 = l.
Proof.
  rewrite <- list_fmap_compose. rewrite <- (list_fmap_id l) at 2.
  by apply list_fmap_ext.
Qed.

Lemma filter_data_passes_through df nutrient operator value st :
  operator ∉ recognized →
  filter_data df nutrient operator value st =
    (Return df, {| frames := frames st; self := self st;
                   stdout := stdout st ++ ["operator not recognized."] |}).
Proof.
  intros Hop. unfold filter_data, recognized in *.
  repeat case_decide; subst; try done; exfalso; apply Hop;
    repeat first [apply list_elem_of_here | apply list_elem_of_further].
Qed.

Lemma unrecognized_loop (p : DataProcessor) nutrient operator value (cats : list string) :
  operator ∉ recognized →
  (∀ c, c ∈ cats → c ∈ dict_keys (datasets p)) →
  ∀ (acc : dict ref) st,
    for_in cats
      (λ catergory filtered_datasets,
         df ← datasets_getitem p catergory;
         r ← filter_data df nutrient operator value;
         mret (dict_set catergory r filtered_datasets)) acc st
    = (Return (build ((λ c, (c, default 0 (dict_get c (datasets p)))) <$> cats) acc),
       {| frames := frames st; self := self st;
          stdout := stdout st ++ replicate (length cats) "operator not recognized." |}).
Proof.
  intros Hop. induction cats as [|c0 cats IH]; intros Hcats acc st.
  - simpl. rewrite app_nil_r. by destruct st.
  - assert (Hc0 : ∃ df, dict_get c0 (datasets p) = Some df).
    { destruct (dict_get c0 (datasets p)) eqn:E; [by eexists|].
      apply dict_get_None_keys in E. exfalso. apply E, Hcats, elem_of_cons. by left. }
    destruct Hc0 as [df0 Hdf0]. simpl. unfold datasets_getitem. rewrite Hdf0.
    erewrite (bind_Return (_ ≫= _)); cycle 1.
    { rewrite (bind_Return (mret df0) _ st df0 st eq_refl).
      erewrite bind_Return; [done|].
      apply filter_data_passes_through. exact Hop. }
    rewrite IH by (intros c Hc; apply Hcats, elem_of_cons; by right).
    simpl. by rewrite <- app_assoc.
Qed.

(** X7. With an operator that is not recognized, [filter_datasets] over
    registered categories allocates nothing: every requested category is
    bound to its own registered frame, and "operator not recognized." is
    printed once per requested category. *)
Theorem filter_datasets_unrecognized_operator nutrient operator value cats st :
  let requested := match cats with None => categories (self st) | Some l => l end in
  operator ∉ recognized →
  (∀ c, c ∈ requested → c ∈ dict_keys (datasets (self st))) →
  ∃ out,
    filter_datasets nutrient operator value cats st =
      (Return out,
       {| frames := frames st; self := self st;
          stdout := stdout st
                    ++ replicate (length requested) "operator not recognized." |}) ∧
    (∀ c, c ∈ dict_keys out ↔ c ∈ requested) ∧
    ∀ c, c ∈ requested → dict_get c out = dict_get c (datasets (self st)).
Proof.
  intros requested Hop Hreq.
  exists (build ((λ c, (c, default 0 (dict_get c (datasets (self st))))) <$> requested) []).
  split.
  { unfold filter_datasets.
    rewrite (bind_Return get_self _ st (self st) st eq_refl).
    by apply unrecognized_loop. }
  split.
  - intros c. rewrite elem_of_build_keys, fst_fmap_pair. split; [|by right].
    intros [?%elem_of_nil|?]; done.
  - intros c Hc.
    destruct (dict_get c (datasets (self st))) as [df|] eqn:E; cycle 1.
    { apply dict_get_None_keys in E. exfalso. by apply E, Hreq. }
    apply build_get; [by rewrite fst_fmap_pair|].
    intros v' (c' & [= -> ->] & _)%list_elem_of_fmap. by rewrite E.
Qed.

Lemma filter_datasets_unrecognized_operator_witness :
  let requested := categories (self Sample.food_twice) in
  ("!=" ∉ recognized) ∧
  (∀ c, c ∈ requested → c ∈ dict_keys (datasets (self Sample.food_twice))) ∧
  ∃ out,
    filter_datasets "Calories" "!=" (Scalar 100) None Sample.food_twice =
      (Return out,
       {| frames := frames Sample.food_twice; self := self Sample.food_twice;
          stdout := stdout Sample.food_twice
                    ++ replicate (length requested) "operator not recognized." |}) ∧
    (∀ c, c ∈ dict_keys out ↔ c ∈ requested) ∧
    ∀ c, c ∈ requested → dict_get c out = dict_get c (datasets (self Sample.food_twice)).
Proof.
  assert (Hreq : ∀ c, c ∈ categories (self Sample.food_twice) →
                      c ∈ dict_keys (datasets (self Sample.food_twice))).
  { intros c Hc. simpl in Hc.
    repeat (apply elem_of_cons in Hc as [->|Hc]); try ground.
    by apply elem_of_nil in Hc. }
  split; [ground|]. split; [exact Hreq|].
  apply (filter_datasets_unrecognized_operator "Calories" "!=" (Scalar 100) None
           Sample.food_twice); [ground|exact Hreq].
Defined.

(** X8. On a category of [self.categories], [filter_datasets] asked for that
    one category does what [filter_dataset] does: the same frame, under
    the category's name, the same error otherwise, and the same state. *)
Theorem filter_datasets_single_category catergory nutrient operator value st :
  catergory ∈ categories (self st) →
  filter_datasets nutrient operator value (Some [catergory]) st =
    match filter_dataset catergory nutrient operator value st with
    | (Return r, st') => (Return [(catergory, r)], st')
    | (Raise e, st') => (Raise e, st')
    end.
Proof.
  intros Hc. unfold filter_datasets, filter_dataset.
  rewrite !(bind_Return get_self _ st (self st) st eq_refl).
  rewrite decide_True by done. simpl. unfold datasets_getitem.
  destruct (dict_get catergory (datasets (self st))) as [df|]; [|done].
  run_py. by destruct (filter_data df nutrient operator value st) as [[r|e] st'].
Qed.

Lemma filter_datasets_single_category_witness :
  ("drinks" ∈ categories (self Sample.two_categories)) ∧
  filter_datasets "Sodium" "==" (Scalar 10) (Some ["drinks"]) Sample.two_categories =
    match filter_dataset "drinks" "Sodium" "==" (Scalar 10) Sample.two_categories with
    | (Return r, st') => (Return [("drinks", r)], st')
    | (Raise e, st') => (Raise e, st')
    end.
Proof.
  split; [ground|].
  apply (filter_datasets_single_category "drinks" "Sodium" "==" (Scalar 10)
           Sample.two_categories).
  ground.
Defined.

(** ** Registration, then filtering *)

Lemma register_all_categories calls st :
  categories (self (register_all calls st)) = categories (self st) ++ calls.*1.
Proof.
  revert st. induction calls as [|[c0 df0] calls IH]; intros st;
    cbn [register_all].
  - by rewrite app_nil_r.
  - rewrite IH. simpl. by rewrite <- app_assoc.
Qed.

Lemma register_all_keys calls st c :
  c ∈ dict_keys (datasets (self (register_all calls st))) ↔
  c ∈ dict_keys (datasets (self st)) ∨ c ∈ calls.*1.
Proof.
  revert st. induction calls as [|[c0 df0] calls IH]; intros st;
    cbn [register_all].
  - split; [by left|]. intros [?|?%elem_of_nil]; done.
  - rewrite IH. simpl. rewrite elem_of_dict_keys_set, elem_of_cons. tauto.
Qed.

Lemma register_all_wf calls st :
  dict_wf (datasets (self st)) → dict_wf (datasets (self (register_all calls st))).
Proof.
  revert st. induction calls as [|[c0 df0] calls IH]; intros st Hwf; [done|].
  cbn [register_all]. apply IH. simpl. by apply dict_wf_set.
Qed.

Lemma register_all_last calls st c df :
  dict_get c (reverse calls) = Some df →
  dict_get c (datasets (self (register_all calls st))) = Some df.
Proof.
  revert st. induction calls as [|[c0 df0] calls IH]; intros st; [done|].
  cbn [register_all]. rewrite reverse_cons, dict_get_app.
  destruct (dict_get c (reverse calls)) as [v|] eqn:E.
  - intros [= ->]. by apply IH.
  - simpl. case_decide as Hc; [|done]. intros [= ->]. subst c0.
    rewrite register_all_other.
    + simpl. apply dict_get_set_eq.
    + apply dict_get_None_keys in E. unfold dict_keys in E.
      by rewrite fmap_reverse, elem_of_reverse in E.
Qed.

Lemma register_all_store calls st :
  frames (register_all calls st) = frames st ∧
  stdout (register_all calls st) = stdout st.
Proof.
  revert st. induction calls as [|[c0 df0] calls IH]; intros st; [done|].
  cbn [register_all]. by destruct (IH (add_datasets c0 df0 st).2) as [-> ->].
Qed.

(** X9. After any sequence of [add_datasets] calls, filtering a category that
    was registered filters the frame of its last registration: the lookup
    of [filter_dataset] raises neither its [ValueError] nor a [KeyError]. *)
Theorem registered_category_filters_its_last_frame
    calls catergory df nutrient operator value st :
  dict_get catergory (reverse calls) = Some df →
  filter_dataset catergory nutrient operator value (register_all calls st)
    = filter_data df nutrient operator value (register_all calls st).
Proof.
  intros Hlast. unfold filter_dataset.
  rewrite (bind_Return get_self _ _ (self (register_all calls st)) _ eq_refl).
  rewrite decide_True.
  - unfold datasets_getitem. rewrite (register_all_last _ _ _ _ Hlast).
    by rewrite (bind_Return (mret df) _ _ df _ eq_refl).
  - rewrite register_all_categories, elem_of_app. right.
    apply dict_get_Some_keys in Hlast. unfold dict_keys in Hlast.
    by rewrite fmap_reverse, elem_of_reverse in Hlast.
Qed.

Lemma registered_category_filters_its_last_frame_witness :
  dict_get "food" (reverse [("food", 0); ("drinks", 2); ("food", 1)]) = Some 1 ∧
  filter_dataset "food" "Fat" ">" (Scalar 3)
    (register_all [("food", 0); ("drinks", 2); ("food", 1)] Sample.loaded)
  = filter_data 1 "Fat" ">" (Scalar 3)
      (register_all [("food", 0); ("drinks", 2); ("food", 1)] Sample.loaded).
Proof.
  split; [reflexivity|].
  apply (registered_category_filters_its_last_frame
           [("food", 0); ("drinks", 2); ("food", 1)] "food" 1 "Fat" ">" (Scalar 3)
           Sample.loaded).
  reflexivity.
Defined.

(** X10. Starting from a new engine, any sequence of [add_datasets] calls
    leaves the frames and the output untouched and keeps the two
    attributes aligned: a name is in [categories] exactly when it is a key
    of [datasets], and [datasets] never has more entries than
    [categories]. *)
Theorem registration_keeps_the_registry_aligned calls st :
  self st = init →
  frames (register_all calls st) = frames st ∧
  stdout (register_all calls st) = stdout st ∧
  (∀ c, c ∈ categories (self (register_all calls st)) ↔
        c ∈ dict_keys (datasets (self (register_all calls st)))) ∧
  (dict_len (datasets (self (register_all calls st)))
    ≤ length (categories (self (register_all calls st))))%nat.
Proof.
  intros Hinit. destruct (register_all_store calls st) as [Hf Ho].
  split; [done|]. split; [done|].
  assert (Hal : ∀ c, c ∈ categories (self (register_all calls st)) ↔
                     c ∈ dict_keys (datasets (self (register_all calls st)))).
  { intros c. rewrite register_all_categories, register_all_keys, Hinit. simpl.
    split; [by right|]. intros [?%elem_of_nil|?]; done. }
  split; [done|].
  assert (Hwf : dict_wf (datasets (self (register_all calls st)))).
  { apply register_all_wf. rewrite Hinit. apply NoDup_nil_2. }
  unfold dict_len. rewrite <- (length_fmap fst).
  apply NoDup_incl_length.
  - by apply NoDup_ListNoDup.
  - intros c Hc%list_elem_of_In. by apply list_elem_of_In, Hal.
Qed.

Lemma registration_keeps_the_registry_aligned_witness :
  self Sample.loaded = init ∧
  frames (register_all [("food", 0); ("food", 1)] Sample.loaded) = frames Sample.loaded ∧
  stdout (register_all [("food", 0); ("food", 1)] Sample.loaded) = stdout Sample.loaded ∧
  (∀ c, c ∈ categories (self (register_all [("food", 0); ("food", 1)] Sample.loaded)) ↔
        c ∈ dict_keys (datasets (self (register_all [("food", 0); ("food", 1)] Sample.loaded)))) ∧
  (dict_len (datasets (self (register_all [("food", 0); ("food", 1)] Sample.loaded)))
    ≤ length (categories (self (register_all [("food", 0); ("food", 1)] Sample.loaded))))%nat.
Proof.
  split; [reflexivity|].
  apply (registration_keeps_the_registry_aligned [("food", 0); ("food", 1)] Sample.loaded).
  reflexivity.
Defined.

(** [filter_data] does not read the engine. *)
Lemma filter_data_with_self p df nutrient operator value st :
  filter_data df nutrient operator value (with_self p st) =
    ((filter_data df nutrient operator value st).1,
     with_self p (filter_data df nutrient operator value st).2).
Proof.
  unfold filter_data. repeat case_decide; try done; run_py;
    change (frame_at (with_self p st) df) with (frame_at st df);
    destruct (getitem (frame_at st df) nutrient) as [col|e]; try done;
    try (by destruct (compare_series _ col value)).
  by destruct value.
Qed.

(** X11. Registering a category does not change what filtering another
    category gives: the same outcome, the same frames and the same
    output; only the registry differs. *)
Theorem registering_leaves_other_categories c df c' nutrient operator value st :
  c ≠ c' →
  filter_dataset c' nutrient operator value (add_datasets c df st).2 =
    ((filter_dataset c' nutrient operator value st).1,
     with_self (self (add_datasets c df st).2)
               (filter_dataset c' nutrient operator value st).2).
Proof.
  intros Hne. unfold filter_dataset.
  rewrite (bind_Return get_self _ _ (self (add_datasets c df st).2) _ eq_refl).
  rewrite (bind_Return get_self _ st (self st) st eq_refl). simpl.
  destruct (decide (c' ∈ categories (self st))) as [Hin|Hnin].
  - rewrite decide_True by (apply elem_of_app; by left).
    unfold datasets_getitem. simpl. rewrite dict_get_set_ne by done.
    destruct (dict_get c' (datasets (self st))) as [r|]; [|done].
    run_py. fold (with_self (mkProcessor (dict_set c df (datasets (self st)))
                               (categories (self st) ++ [c])) st).
    rewrite filter_data_with_self.
    by destruct (filter_data r nutrient operator value st) as [[?|?] ?].
  - rewrite decide_False; [done|].
    rewrite elem_of_app, list_elem_of_singleton. intros [?|?]; done.
Qed.

Lemma registering_leaves_other_categories_witness :
  "snacks" ≠ "food" ∧
  filter_dataset "food" "Calories" "<" (Scalar 400)
    (add_datasets "snacks" 1 Sample.two_categories).2 =
    ((filter_dataset "food" "Calories" "<" (Scalar 400) Sample.two_categories).1,
     with_self (self (add_datasets "snacks" 1 Sample.two_categories).2)
       (filter_dataset "food" "Calories" "<" (Scalar 400) Sample.two_categories).2).
Proof.
  split; [done|].
  apply (registering_leaves_other_categories "snacks" 1 "food" "Calories" "<"
           (Scalar 400) Sample.two_categories).
  done.
Defined.

(** ** More of [compare_datasets] and [calculate_descriptive_stats] *)

Section ComparisonShape.
Context `{Runtime}.

(** The dictionary that [compare_datasets] returns. *)
Lemma compare_datasets_run nutrients st :
  dict_wf (datasets (self st)) →
  (2 ≤ dict_len (datasets (self st)))%nat →
  ∃ N : list string,
    compare_datasets nutrients st =
      (Return (Some (build ((λ kv, (kv.1, build ((λ n, (n, record_of (frame_at st kv.2) n)) <$> N) []))
                              <$> datasets (self st)) [])), st) ∧
    match nutrients with
    | Some l => N = l
    | None => ∀ n, n ∈ N ↔ ∀ c r, dict_get c (datasets (self st)) = Some r →
                                 n ∈ columns (frame_at st r)
    end.
Proof.
  intros Hwf Hlen.
  assert (Hmain : ∀ N,
    for_in (datasets (self st))
      (λ '(category, r) comparison,
         df ← deref r;
         entry ← compare_category df N;
         mret (dict_set category entry comparison)) [] st
    = (Return (build ((λ kv, (kv.1, build ((λ n, (n, record_of (frame_at st kv.2) n)) <$> N) []))
                        <$> datasets (self st)) []), st)).
  { intros N. apply (for_in_build _ _
      (λ kv, (kv.1, build ((λ n, (n, record_of (frame_at st kv.2) n)) <$> N) []))).
    intros [c r] _ acc. run_py. by rewrite compare_category_run. }
  unfold compare_datasets.
  rewrite (bind_Return get_self _ st (self st) st eq_refl).
  rewrite decide_False by lia.
  destruct nutrients as [l|].
  - exists l. rewrite (bind_Return (mret l) _ st l st eq_refl).
    by rewrite (bind_Return _ _ _ _ _ (Hmain l)).
  - destruct (inferred_nutrients st Hwf Hlen) as (common & Hint & Hcommon).
    exists (elements common).
    erewrite (bind_Return (_ ≫= _) _ st (elements common) st); cycle 1.
    { rewrite (bind_Return _ _ _ _ _ (all_cols_run _ [] st)). simpl.
      erewrite (bind_Return (lift _)) by (unfold lift; by rewrite Hint). done. }
    by rewrite (bind_Return _ _ _ _ _ (Hmain (elements common))).
Qed.

(** The entry of a category in that dictionary. *)
Lemma comparison_entry (N : list string) st c entry :
  dict_wf (datasets (self st)) →
  dict_get c (build ((λ kv, (kv.1, build ((λ n, (n, record_of (frame_at st kv.2) n)) <$> N) []))
                       <$> datasets (self st)) []) = Some entry →
  ∃ r, dict_get c (datasets (self st)) = Some r ∧
       entry = build ((λ n, (n, record_of (frame_at st r) n)) <$> N) [].
Proof.
  intros Hwf Hget.
  destruct (build_over_items (datasets (self st))
              (λ r, build ((λ n, (n, record_of (frame_at st r) n)) <$> N) []) Hwf)
    as [Hkeys Hvals].
  pose proof (dict_get_Some_keys _ _ _ Hget) as Hc. rewrite Hkeys in Hc.
  destruct (dict_get c (datasets (self st))) as [r|] eqn:E.
  - exists r. split; [done|]. rewrite (Hvals c r E) in Hget. congruence.
  - by apply dict_get_None_keys in E.
Qed.

(** X12. Over frames with distinct column labels, without a nutrients
    argument only common nutrients are compared: every
    nutrient of every entry is a column of every registered frame, and no
    record is the missing one: each has its integer count and its rounded
    fields. *)
Theorem default_comparison_has_no_missing_record st :
  dict_wf (datasets (self st)) →
  (2 ≤ dict_len (datasets (self st)))%nat →
  distinct_labels st →
  ∃ comparison,
    compare_datasets None st = (Return (Some comparison), st) ∧
    ∀ c entry n record,
      dict_get c comparison = Some entry →
      dict_get n entry = Some record →
      (∀ c' r', dict_get c' (datasets (self st)) = Some r' →
                n ∈ columns (frame_at st r')) ∧
      count_and_rounded record ∧ ¬ all_missing record.
Proof.
  intros Hwf Hlen _.
  destruct (compare_datasets_run None st Hwf Hlen) as (N & Hrun & HN).
  eexists. split; [exact Hrun|].
  intros c entry n record Hc Hn.
  destruct (comparison_entry N st c entry Hwf Hc) as (r & Hr & ->).
  destruct (category_entry (frame_at st r) N) as [Hk Hv].
  assert (HnN : n ∈ N) by (apply Hk; by eapply dict_get_Some_keys).
  rewrite (Hv n HnN) in Hn. injection Hn as <-.
  assert (Hcol : n ∈ columns (frame_at st r)) by by eapply HN.
  split; [by apply HN|].
  pose proof (proj1 (record_of_shape (frame_at st r) n) Hcol) as Hshape.
  split; [done|]. intros [_ Hmiss].
  destruct Hshape as (_ & [k Hk'] & _).
  rewrite Hmiss in Hk' by (apply elem_of_cons; by left). done.
Qed.

(** X13. Over frames with distinct column labels, a nutrients list without
    repetition is kept as it is: every entry of
    the result lists exactly those nutrients, in the caller's order. *)
Theorem supplied_nutrients_keep_their_order (l : list string) st :
  dict_wf (datasets (self st)) →
  (2 ≤ dict_len (datasets (self st)))%nat →
  distinct_labels st →
  NoDup l →
  ∃ comparison,
    compare_datasets (Some l) st = (Return (Some comparison), st) ∧
    dict_keys comparison = dict_keys (datasets (self st)) ∧
    ∀ c entry, dict_get c comparison = Some entry → dict_keys entry = l.
Proof.
  intros Hwf Hlen _ Hl.
  destruct (compare_datasets_run (Some l) st Hwf Hlen) as (N & Hrun & ->).
  eexists. split; [exact Hrun|]. split.
  - apply (build_over_items (datasets (self st))
             (λ r, build ((λ n, (n, record_of (frame_at st r) n)) <$> l) []) Hwf).
  - intros c entry Hc.
    destruct (comparison_entry l st c entry Hwf Hc) as (r & Hr & ->).
    rewrite build_keys_fresh; rewrite fst_fmap_pair; done.
Qed.

(** X14. [calculate_descriptive_stats] passes on the error of [describe]: when
    [describe] accepts the frames registered before a category and raises
    on the frame of that category, the method raises that error and
    returns no statistics, the state being unchanged. *)
Theorem describe_error_is_passed_on st before c r after e :
  datasets (self st) = before ++ (c, r) :: after →
  (∀ c' r', (c', r') ∈ before → ∃ d, describe (frame_at st r') = Return d) →
  describe (frame_at st r) = Raise e →
  calculate_descriptive_stats st = (Raise e, st).
Proof.
  intros Hd Hbefore He. unfold calculate_descriptive_stats.
  rewrite (bind_Return get_self _ st (self st) st eq_refl).
  rewrite Hd, for_in_app.
  erewrite (for_in_build before _ (λ kv, (kv.1, stats_of (frame_at st kv.2)))); cycle 1.
  { intros [c' r'] Hin acc. destruct (Hbefore c' r' Hin) as [d Hd'].
    by apply (stats_body_run c' r' acc st d). }
  simpl. run_py. by rewrite He.
Qed.
End ComparisonShape.

Lemma default_comparison_has_no_missing_record_witness :
  dict_wf (datasets (self Sample.two_categories)) ∧
  (2 ≤ dict_len (datasets (self Sample.two_categories)))%nat ∧
  distinct_labels Sample.two_categories ∧
  ∃ comparison,
    compare_datasets (H := Reference.runtime) None Sample.two_categories
      = (Return (Some comparison), Sample.two_categories) ∧
    ∀ c entry n record,
      dict_get c comparison = Some entry →
      dict_get n entry = Some record →
      (∀ c' r', dict_get c' (datasets (self Sample.two_categories)) = Some r' →
                n ∈ columns (frame_at Sample.two_categories r')) ∧
      count_and_rounded (H := Reference.runtime) record ∧ ¬ all_missing record.
Proof.
  assert (Hwf : dict_wf (datasets (self Sample.two_categories))).
  { unfold dict_wf, dict_keys. compute_done. }
  assert (Hlen : (2 ≤ dict_len (datasets (self Sample.two_categories)))%nat).
  { simpl. lia. }
  assert (Hlabels : distinct_labels Sample.two_categories) by labels_distinct.
  split; [exact Hwf|]. split; [exact Hlen|]. split; [exact Hlabels|].
  exact (default_comparison_has_no_missing_record (H := Reference.runtime)
           Sample.two_categories Hwf Hlen Hlabels).
Defined.

Lemma supplied_nutrients_keep_their_order_witness :
  dict_wf (datasets (self Sample.two_categories)) ∧
  (2 ≤ dict_len (datasets (self Sample.two_categories)))%nat ∧
  distinct_labels Sample.two_categories ∧
  NoDup ["Protein"; "Calories"] ∧
  ∃ comparison,
    compare_datasets (H := Reference.runtime) (Some ["Protein"; "Calories"])
      Sample.two_categories
      = (Return (Some comparison), Sample.two_categories) ∧
    dict_keys comparison = dict_keys (datasets (self Sample.two_categories)) ∧
    ∀ c entry, dict_get c comparison = Some entry →
               dict_keys entry = ["Protein"; "Calories"].
Proof.
  assert (Hwf : dict_wf (datasets (self Sample.two_categories))).
  { unfold dict_wf, dict_keys. compute_done. }
  assert (Hlen : (2 ≤ dict_len (datasets (self Sample.two_categories)))%nat).
  { simpl. lia. }
  assert (Hl : NoDup ["Protein"; "Calories"]) by compute_done.
  assert (Hlabels : distinct_labels Sample.two_categories) by labels_distinct.
  split; [exact Hwf|]. split; [exact Hlen|]. split; [exact Hlabels|]. split; [exact Hl|].
  exact (supplied_nutrients_keep_their_order (H := Reference.runtime)
           ["Protein"; "Calories"] Sample.two_categories Hwf Hlen Hlabels Hl).
Defined.

Lemma describe_error_is_passed_on_witness :
  datasets (self Edge.food_and_water) = [("food", 0)] ++ ("water", 1) :: [] ∧
  (∀ c' r', (c', r') ∈ [("food", 0)] →
            ∃ d, Reference.describe (frame_at Edge.food_and_water r') = Return d) ∧
  Reference.describe (frame_at Edge.food_and_water 1)
    = Raise (ValueError "Cannot describe a DataFrame without columns") ∧
  calculate_descriptive_stats (H := Reference.runtime) Edge.food_and_water
    = (Raise (ValueError "Cannot describe a DataFrame without columns"),
       Edge.food_and_water).
Proof.
  assert (Hbefore : ∀ c' r', (c', r') ∈ [("food", 0)] →
            ∃ d, Reference.describe (frame_at Edge.food_and_water r') = Return d).
  { intros c' r' [[= -> ->]|Hin%elem_of_nil]%elem_of_cons; [|done]. by eexists. }
  split; [reflexivity|]. split; [exact Hbefore|]. split; [reflexivity|].
  exact (describe_error_is_passed_on (H := Reference.runtime) Edge.food_and_water
           [("food", 0)] "water" 1 []
           (ValueError "Cannot describe a DataFrame without columns")
           eq_refl Hbefore eq_refl).
Defined.

(** ** [print_comparison] on what [compare_datasets] returns *)

Lemma for_in_pure {A S : Type} (l : list A) (body : A → S → Py S) st :
  (∀ x, x ∈ l → ∀ acc, ∃ acc', body x acc st = (Return acc', st)) →
  ∀ acc, ∃ out, for_in l body acc st = (Return out, st).
Proof.
  induction l as [|x l IH]; intros Hbody acc; [by exists acc|].
  destruct (Hbody x (list_elem_of_here _ _) acc) as [acc' Hx].
  destruct (IH (λ y Hy, Hbody y (list_elem_of_further _ _ _ Hy)) acc') as [out Hout].
  exists out. simpl. by rewrite (bind_Return _ _ _ _ _ Hx).
Qed.

Lemma dict_getitem_Some {V : Type} (k : string) (d : dict V) v :
  dict_get k d = Some v → dict_getitem k d = Return v.
Proof. unfold dict_getitem. by intros ->. Qed.

Lemma dict_get_of_key {V : Type} (k : string) (d : dict V) :
  k ∈ dict_keys d → ∃ v, dict_get k d = Some v.
Proof.
  intros Hk. destruct (dict_get k d) as [v|] eqn:E; [by exists v|].
  by apply dict_get_None_keys in E.
Qed.

Section Printing.
Context `{Runtime} `{Display}.

(** Every record of the engine has every one of the nine fields. *)
Lemma record_of_field df nutrient field :
  field ∈ nine_fields → ∃ v, dict_get field (record_of df nutrient) = Some v.
Proof.
  intros Hf. apply dict_get_of_key.
  destruct (decide (nutrient ∈ columns df)) as [Hin|Hnin].
  - destruct (proj1 (record_of_shape df nutrient) Hin) as [-> _]. done.
  - destruct (proj2 (record_of_shape df nutrient) Hnin) as [-> _]. done.
Qed.

Lemma record_of_no_other_field df nutrient field :
  field ∉ nine_fields → dict_get field (record_of df nutrient) = None.
Proof.
  intros Hf. apply dict_get_None_keys.
  destruct (decide (nutrient ∈ columns df)) as [Hin|Hnin].
  - destruct (proj1 (record_of_shape df nutrient) Hin) as [-> _]. done.
  - destruct (proj2 (record_of_shape df nutrient) Hnin) as [-> _]. done.
Qed.

(** The table of a metric that is one of the nine fields is built without
    an error, whatever the state. *)
Lemma metric_table_of_engine (N : list string) st0 (cats nuts : list string) metric st :
  dict_wf (datasets (self st0)) →
  (∀ c, c ∈ cats → c ∈ dict_keys (datasets (self st0))) →
  (∀ n, n ∈ nuts → n ∈ N) →
  metric ∈ nine_fields →
  ∃ to_print,
    metric_table
      (build ((λ kv, (kv.1, build ((λ n, (n, record_of (frame_at st0 kv.2) n)) <$> N) []))
                <$> datasets (self st0)) [])
      cats nuts metric st
    = (Return to_print, st).
Proof.
  intros Hwf Hcats Hnuts Hmetric. unfold metric_table.
  apply for_in_pure. intros c Hc acc.
  destruct (dict_get_of_key c (datasets (self st0)) (Hcats c Hc)) as [r Hr].
  pose proof (proj2 (build_over_items (datasets (self st0))
     (λ r, build ((λ n, (n, record_of (frame_at st0 r) n)) <$> N) []) Hwf) c r Hr) as Hentry.
  cbv beta in Hentry.
  set (inner := λ (nutrient : string) (column : dict pyval),
     by_category ← lift (dict_getitem c
         (build ((λ kv, (kv.1, build ((λ n, (n, record_of (frame_at st0 kv.2) n)) <$> N) []))
                   <$> datasets (self st0)) []));
     by_nutrient ← lift (dict_getitem nutrient by_category);
     v ← lift (dict_getitem metric by_nutrient);
     mret (dict_set nutrient v column)).
  assert (Hpure : ∀ n, n ∈ nuts → ∀ column, ∃ column',
            inner n column st = (Return column', st)).
  { intros n Hn column. subst inner. cbv beta.
    destruct (record_of_field (frame_at st0 r) n metric Hmetric) as [v Hv].
    exists (dict_set n v column).
    rewrite (bind_Return (lift _) _ st _ st
               (f_equal (λ o, (o, st)) (dict_getitem_Some _ _ _ Hentry))).
    pose proof (proj2 (category_entry (frame_at st0 r) N) n (Hnuts n Hn)) as Hrec.
    rewrite (bind_Return (lift _) _ st _ st
               (f_equal (λ o, (o, st)) (dict_getitem_Some _ _ _ Hrec))).
    by rewrite (bind_Return (lift _) _ st _ st
               (f_equal (λ o, (o, st)) (dict_getitem_Some _ _ _ Hv))). }
  destruct (for_in_pure nuts inner st Hpure []) as [column Hcol].
  exists (dict_set c column acc). by rewrite (bind_Return _ _ _ _ _ Hcol).
Qed.

(** The loop over the metrics prints five lines per metric. *)
Lemma metrics_loop (N : list string) st0 (cats nuts metrics : list string) :
  dict_wf (datasets (self st0)) →
  (∀ c, c ∈ cats → c ∈ dict_keys (datasets (self st0))) →
  (∀ n, n ∈ nuts → n ∈ N) →
  (∀ m, m ∈ metrics → m ∈ nine_fields) →
  ∀ st, ∃ st',
    for_in metrics
      (λ metric (_ : unit),
         to_print ← metric_table
           (build ((λ kv, (kv.1, build ((λ n, (n, record_of (frame_at st0 kv.2) n)) <$> N) []))
                     <$> datasets (self st0)) [])
           cats nuts metric;
         _ ← print newline;
         _ ← print (str_times "-" 80);
         _ ← print (str_upper metric +:+ " COMPARISON");
         _ ← print (str_times "-" 80);
         print (frame_repr to_print)) () st
    = (Return (), st') ∧
    frames st' = frames st ∧ self st' = self st ∧
    length (stdout st') = length (stdout st) + 5 * length metrics.
Proof.
  intros Hwf Hcats Hnuts. induction metrics as [|m metrics IH]; intros Hm st.
  - exists st. split; [done|]. split; [done|]. split; [done|]. simpl. lia.
  - destruct (metric_table_of_engine N st0 cats nuts m st Hwf Hcats Hnuts)
      as [tp Htp]; [apply Hm, elem_of_cons; by left|].
    destruct (IH (λ x Hx, Hm x (list_elem_of_further _ _ _ Hx))
      {| frames := frames st; self := self st;
         stdout := stdout st ++ [newline; str_times "-" 80;
                                 str_upper m +:+ " COMPARISON"; str_times "-" 80;
                                 frame_repr tp] |})
      as (st' & Hrun & Hf & Hs & Hlen).
    exists st'. split.
    { simpl. erewrite (bind_Return (_ ≫= _)); [exact Hrun|].
      rewrite (bind_Return _ _ _ _ _ Htp). unfold print. run_py.
      by rewrite <- !app_assoc. }
    split; [done|]. split; [done|]. rewrite Hlen. simpl.
    rewrite length_app. simpl. lia.
Qed.

(** X15. With at least two registered datasets, whose frames have distinct
    column labels, [print_comparison] accepts
    what [compare_datasets] returns for every choice of metrics among the
    nine fields (the default choice included): none of its lookups
    raises, it prints four lines of heading, five lines per metric and a
    closing line, and leaves the frames and the engine alone. *)
Theorem print_comparison_accepts_engine_output nutrients metrics st :
  let chosen := match metrics with None => default_metrics | Some l => l end in
  dict_wf (datasets (self st)) →
  (2 ≤ dict_len (datasets (self st)))%nat →
  distinct_labels st →
  (∀ m, m ∈ chosen → m ∈ nine_fields) →
  ∃ comparison st',
    compare_datasets nutrients st = (Return comparison, st) ∧
    print_comparison comparison metrics st = (Return (), st') ∧
    frames st' = frames st ∧ self st' = self st ∧
    length (stdout st') = length (stdout st) + 5 + 5 * length chosen.
Proof.
  intros chosen Hwf Hlen _ Hchosen.
  destruct (compare_datasets_run nutrients st Hwf Hlen) as (N & Hrun & _).
  set (cmp := build ((λ kv, (kv.1, build ((λ n, (n, record_of (frame_at st kv.2) n)) <$> N) []))
                       <$> datasets (self st)) []).
  destruct (build_over_items (datasets (self st))
              (λ r, build ((λ n, (n, record_of (frame_at st r) n)) <$> N) []) Hwf)
    as [Hkeys Hvals]. fold cmp in Hkeys, Hvals.
  assert (∃ c0 r0 d, datasets (self st) = (c0, r0) :: d) as (c0 & r0 & d & Hd).
  { destruct (datasets (self st)) as [|[c0 r0] d]; [simpl in Hlen; lia|].
    by eexists _, _, _. }
  assert (Hc0 : dict_get c0 (datasets (self st)) = Some r0).
  { rewrite Hd. simpl. by rewrite decide_True. }
  pose proof (Hvals c0 r0 Hc0) as Hfirst. cbv beta in Hfirst.
  assert (Hcats : ∀ c, c ∈ dict_keys cmp → c ∈ dict_keys (datasets (self st))).
  { intros c. by rewrite Hkeys. }
  assert (Hnuts : ∀ n,
            n ∈ dict_keys (build ((λ n, (n, record_of (frame_at st r0) n)) <$> N) []) →
            n ∈ N).
  { intros n. apply (proj1 (category_entry (frame_at st r0) N)). }
  destruct (metrics_loop N st (dict_keys cmp)
              (dict_keys (build ((λ n, (n, record_of (frame_at st r0) n)) <$> N) []))
              chosen Hwf Hcats Hnuts Hchosen
              {| frames := frames st; self := self st;
                 stdout := stdout st ++ [newline; str_times "=" 80;
                                         "DATASETS COMPARISON"; str_times "=" 80] |})
    as (st1 & Hloop & Hf & Hs & Hl).
  assert (Hne : dict_len cmp ≠ 0).
  { unfold dict_len. rewrite <- (length_fmap fst). fold (dict_keys cmp).
    rewrite Hkeys, Hd. done. }
  assert (Hfirstkey : list_first (dict_keys cmp) = Return c0).
  { rewrite Hkeys, Hd. done. }
  exists (Some cmp),
    {| frames := frames st1; self := self st1; stdout := stdout st1 ++ [newline] |}.
  split; [exact Hrun|]. split.
  { unfold print_comparison. rewrite decide_False by done.
    fold chosen.
    do 4 (erewrite bind_Return; [|reflexivity]).
    erewrite (bind_Return (lift _)); [|unfold lift; by rewrite Hfirstkey].
    erewrite (bind_Return (lift _));
      [|unfold lift; by rewrite (dict_getitem_Some _ _ _ Hfirst)].
    erewrite bind_Return; [reflexivity|].
    simpl. rewrite <- !app_assoc. exact Hloop. }
  split; [exact Hf|]. split; [exact Hs|].
  simpl. rewrite length_app, Hl. simpl. rewrite length_app. simpl. lia.
Qed.
End Printing.

Lemma build_keys_head {V : Type} (kvs : list (string * V)) k0 v0 (d : dict V) :
  ∃ tl, dict_keys (build kvs ((k0, v0) :: d)) = k0 :: tl.
Proof.
  revert v0 d. induction kvs as [|[k v] kvs IH]; intros v0 d; [by eexists|].
  rewrite build_cons. simpl. case_decide; apply IH.
Qed.

Lemma build_keys_first {V : Type} (k : string) (v : V) (kvs : list (string * V)) :
  ∃ tl, dict_keys (build ((k, v) :: kvs) []) = k :: tl.
Proof. rewrite build_cons. simpl. apply build_keys_head. Qed.

Lemma bind_Raise {A B : Type} (m : Py A) (k : A → Py B) st e st' :
  m st = (Raise e, st') → (m ≫= k) st = (Raise e, st').
Proof. unfold mbind, Py_bind. by intros ->. Qed.

Section PrintingErrors.
Context `{Runtime} `{Display}.

(** X16. With fewer than two datasets, handing the result of
    [compare_datasets] to [print_comparison] raises the [TypeError] of
    [len(None)], after the message of [compare_datasets] and before any
    heading is printed. *)
Theorem printing_a_missing_comparison_raises nutrients metrics st :
  dict_len (datasets (self st)) < 2 →
  (comparison ← compare_datasets nutrients; print_comparison comparison metrics) st
  = (Raise (TypeError "object of type 'NoneType' has no len()"),
     {| frames := frames st; self := self st;
        stdout := stdout st ++ ["Need at least 2 datasets to compare."] |}).
Proof.
  intros Hlen.
  rewrite (bind_Return _ _ st None
             {| frames := frames st; self := self st;
                stdout := stdout st ++ ["Need at least 2 datasets to compare."] |});
    [done|].
  unfold compare_datasets.
  rewrite (bind_Return get_self _ st (self st) st eq_refl).
  by rewrite decide_True.
Qed.

(** X17. A metric that is not one of the nine fields stops [print_comparison]
    on what [compare_datasets] returns for a non-empty nutrients list,
    over frames with distinct column labels:
    the first lookup raises the [KeyError] that names the metric, after
    the four lines of heading. *)
Theorem print_comparison_unknown_metric n0 l metric others st :
  dict_wf (datasets (self st)) →
  (2 ≤ dict_len (datasets (self st)))%nat →
  distinct_labels st →
  metric ∉ nine_fields →
  ∃ comparison,
    compare_datasets (Some (n0 :: l)) st = (Return comparison, st) ∧
    print_comparison comparison (Some (metric :: others)) st
    = (Raise (KeyError metric),
       {| frames := frames st; self := self st;
          stdout := stdout st ++ [newline; str_times "=" 80;
                                  "DATASETS COMPARISON"; str_times "=" 80] |}).
Proof.
  intros Hwf Hlen _ Hmetric.
  destruct (compare_datasets_run (Some (n0 :: l)) st Hwf Hlen) as (N & Hrun & ->).
  set (cmp := build ((λ kv, (kv.1, build ((λ n, (n, record_of (frame_at st kv.2) n))
                                             <$> n0 :: l) []))
                       <$> datasets (self st)) []) in *.
  destruct (build_over_items (datasets (self st))
              (λ r, build ((λ n, (n, record_of (frame_at st r) n)) <$> n0 :: l) []) Hwf)
    as [Hkeys Hvals]. fold cmp in Hkeys, Hvals.
  assert (∃ c0 r0 d, datasets (self st) = (c0, r0) :: d) as (c0 & r0 & d & Hd).
  { destruct (datasets (self st)) as [|[c0 r0] d]; [simpl in Hlen; lia|].
    by eexists _, _, _. }
  assert (Hc0 : dict_get c0 (datasets (self st)) = Some r0).
  { rewrite Hd. simpl. by rewrite decide_True. }
  pose proof (Hvals c0 r0 Hc0) as Hfirst. cbv beta in Hfirst.
  assert (Hne : dict_len cmp ≠ 0).
  { unfold dict_len. rewrite <- (length_fmap fst). fold (dict_keys cmp).
    rewrite Hkeys, Hd. done. }
  assert (Hcats : dict_keys cmp = c0 :: dict_keys d).
  { rewrite Hkeys, Hd. done. }
  destruct (build_keys_first n0 (record_of (frame_at st r0) n0)
              ((λ n, (n, record_of (frame_at st r0) n)) <$> l)) as [nuts Hnuts].
  change ((n0, record_of (frame_at st r0) n0)
          :: ((λ n, (n, record_of (frame_at st r0) n)) <$> l))
    with ((λ n, (n, record_of (frame_at st r0) n)) <$> n0 :: l) in Hnuts.
  pose proof (proj2 (category_entry (frame_at st r0) (n0 :: l)) n0
                (list_elem_of_here _ _)) as Hrec.
  exists (Some cmp). split; [exact Hrun|].
  unfold print_comparison. rewrite decide_False by done.
  do 4 (erewrite bind_Return; [|reflexivity]).
  erewrite (bind_Return (lift _)); [|unfold lift; by rewrite Hcats].
  erewrite (bind_Return (lift _));
    [|unfold lift; by rewrite (dict_getitem_Some _ _ _ Hfirst)].
  rewrite Hcats, Hnuts.
  unfold print at 1 2 3 4. cbn [frames self stdout]. rewrite <- !app_assoc. cbn [app].
  erewrite bind_Raise; [reflexivity|]. cbn [for_in].
  erewrite bind_Raise; [reflexivity|].
  erewrite bind_Raise; [reflexivity|].
  unfold metric_table. cbn [for_in].
  erewrite bind_Raise; [reflexivity|].
  erewrite bind_Raise; [reflexivity|].
  erewrite bind_Raise; [reflexivity|].
  erewrite (bind_Return (lift _));
    [|unfold lift; by rewrite (dict_getitem_Some _ _ _ Hfirst)].
  erewrite (bind_Return (lift _));
    [|unfold lift; by rewrite (dict_getitem_Some _ _ _ Hrec)].
  erewrite bind_Raise; [reflexivity|].
  unfold lift, dict_getitem. by rewrite (record_of_no_other_field _ _ _ Hmetric).
Qed.
End PrintingErrors.

Lemma print_comparison_accepts_engine_output_witness :
  let chosen := ["mean"; "min"] in
  dict_wf (datasets (self Sample.two_categories)) ∧
  (2 ≤ dict_len (datasets (self Sample.two_categories)))%nat ∧
  distinct_labels Sample.two_categories ∧
  (∀ m, m ∈ chosen → m ∈ nine_fields) ∧
  ∃ comparison st',
    compare_datasets (H := Reference.runtime) None Sample.two_categories
      = (Return comparison, Sample.two_categories) ∧
    print_comparison (H := Plain.display) comparison (Some ["mean"; "min"])
      Sample.two_categories = (Return (), st') ∧
    frames st' = frames Sample.two_categories ∧
    self st' = self Sample.two_categories ∧
    length (stdout st') = length (stdout Sample.two_categories) + 5 + 5 * length chosen.
Proof.
  assert (Hwf : dict_wf (datasets (self Sample.two_categories))).
  { unfold dict_wf, dict_keys. compute_done. }
  assert (Hlen : (2 ≤ dict_len (datasets (self Sample.two_categories)))%nat).
  { simpl. lia. }
  assert (Hm : ∀ m, m ∈ ["mean"; "min"] → m ∈ nine_fields).
  { intros m Hin. repeat (apply elem_of_cons in Hin as [->|Hin]); try ground.
    by apply elem_of_nil in Hin. }
  assert (Hlabels : distinct_labels Sample.two_categories) by labels_distinct.
  split; [exact Hwf|]. split; [exact Hlen|]. split; [exact Hlabels|]. split; [exact Hm|].
  exact (print_comparison_accepts_engine_output
           (H := Reference.runtime) (H0 := Plain.display)
           None (Some ["mean"; "min"]) Sample.two_categories Hwf Hlen Hlabels Hm).
Defined.

Lemma printing_a_missing_comparison_raises_witness :
  dict_len (datasets (self Sample.food_twice)) < 2 ∧
  (comparison ← compare_datasets (H := Reference.runtime) None;
   print_comparison (H := Plain.display) comparison (Some ["mean"; "min"]))
    Sample.food_twice
  = (Raise (TypeError "object of type 'NoneType' has no len()"),
     {| frames := frames Sample.food_twice; self := self Sample.food_twice;
        stdout := stdout Sample.food_twice ++ ["Need at least 2 datasets to compare."] |}).
Proof.
  split; [simpl; lia|].
  apply (printing_a_missing_comparison_raises
           (H := Reference.runtime) (H0 := Plain.display)
           None (Some ["mean"; "min"]) Sample.food_twice).
  simpl; lia.
Defined.

Lemma print_comparison_unknown_metric_witness :
  dict_wf (datasets (self Sample.two_categories)) ∧
  (2 ≤ dict_len (datasets (self Sample.two_categories)))%nat ∧
  distinct_labels Sample.two_categories ∧
  ("sum" ∉ nine_fields) ∧
  ∃ comparison,
    compare_datasets (H := Reference.runtime) (Some ("Fat" :: ["Carb"]))
      Sample.two_categories = (Return comparison, Sample.two_categories) ∧
    print_comparison (H := Plain.display) comparison (Some ("sum" :: ["mean"]))
      Sample.two_categories
    = (Raise (KeyError "sum"),
       {| frames := frames Sample.two_categories; self := self Sample.two_categories;
          stdout := stdout Sample.two_categories
                    ++ [newline; str_times "=" 80; "DATASETS COMPARISON";
                        str_times "=" 80] |}).
Proof.
  assert (Hwf : dict_wf (datasets (self Sample.two_categories))).
  { unfold dict_wf, dict_keys. compute_done. }
  assert (Hlen : (2 ≤ dict_len (datasets (self Sample.two_categories)))%nat).
  { simpl. lia. }
  assert (Hm : "sum" ∉ nine_fields) by compute_done.
  assert (Hlabels : distinct_labels Sample.two_categories) by labels_distinct.
  split; [exact Hwf|]. split; [exact Hlen|]. split; [exact Hlabels|]. split; [exact Hm|].
  exact (print_comparison_unknown_metric
           (H := Reference.runtime) (H0 := Plain.display)
           "Fat" ["Carb"] "sum" ["mean"] Sample.two_categories Hwf Hlen Hlabels Hm).
Defined.

(** X18. ["between"] needs a pair: with a single number as operand, on a
    nutrient that exactly one column carries, [filter_data] raises the [TypeError] of
    [value[0]]; no frame is allocated and nothing is printed. *)
Theorem between_with_a_number_raises df nutrient x st :
  nutrient ∈ columns (frame_at st df) →
  label_count nutrient (columns (frame_at st df)) = 1 →
  filter_data df nutrient "between" (Scalar x) st
    = (Raise (TypeError "'float' object is not subscriptable"), st).
Proof.
  intros [i Hi]%elem_of_position _. unfold filter_data. simpl. run_py.
  by rewrite (getitem_position _ _ _ Hi).
Qed.

Lemma between_with_a_number_raises_witness :
  ("Calories" ∈ columns (frame_at Sample.loaded 0)) ∧
  label_count "Calories" (columns (frame_at Sample.loaded 0)) = 1 ∧
  filter_data 0 "Calories" "between" (Scalar 200) Sample.loaded
    = (Raise (TypeError "'float' object is not subscriptable"), Sample.loaded).
Proof.
  split; [ground|]. split; [ground|].
  apply (between_with_a_number_raises 0 "Calories" 200 Sample.loaded); ground.
Defined.
